(** * Star-schema ETL ([etl.py]): a shallow embedding and its properties

    The job reads song records and activity-log records, and writes five
    tables: [songs], [artist], [users], [time] and [song_plays].  The
    functions [process_song_data], [process_log_data] and [main] below
    follow [etl.py] statement by statement.  The dataframe engine the job
    runs on is modelled by the small library in the first half of the
    file: nullable columns are [option], a dataframe is the list of its
    rows, and the engine functions the job calls ([filter], [select],
    [distinct], [join], [withColumn], [date_format], [to_timestamp], the
    calendar extractors, [monotonically_increasing_id]) are total
    functions on them.  The three functions are the job on the files
    its globs match; [etl] adds the one way a read ends the job, a glob
    that matches no file. *)

From Stdlib Require Import ZArith NArith String Ascii.
From Stdlib Require Import Floats.SpecFloat.
From Stdlib Require Import DecimalString DecimalN DecimalPos.
From stdpp Require Import base option list strings.

Local Open Scope string_scope.
Local Open Scope Z_scope.

(** ** Column types *)

(** [DoubleType] and [FloatType] values are IEEE-754 numbers in the
    representation of the standard library's [SpecFloat]; the two formats
    differ by their precision and exponent range. *)
Definition double := spec_float.
Definition float := spec_float.

Module Binary32.
Definition prec : Z := 24.
Definition emax : Z := 128.
End Binary32.

Module Binary64.
Definition prec : Z := 53.
Definition emax : Z := 1024.
Definition of_Z (n : Z) : double := binary_normalize prec emax n 0 false.
Definition mul : double -> double -> double := SFmul prec emax.
Definition div : double -> double -> double := SFdiv prec emax.
End Binary64.

(** [TimestampType]: microseconds since 1970-01-01T00:00:00Z. *)
Definition timestamp := Z.

Global Instance spec_float_eq_dec : EqDecision spec_float.
Proof. solve_decision. Defined.

(** The session time zone: its identifier, as pattern letter [z] prints
    it, and its offset from UTC in seconds. *)
Record zone := { zone_id : string; zone_offset : Z }.

Definition UTC : zone := {| zone_id := "UTC"; zone_offset := 0 |}.

(** ** Three-valued column expressions *)

(** [a == b] on two nullable columns: null when either side is null. *)
Definition sql_eq {A} (eqb : A -> A -> bool) (a b : option A) : option bool :=
  match a, b with
  | Some x, Some y => Some (eqb x y)
  | _, _ => None
  end.

(** [p & q] *)
Definition sql_and (p q : option bool) : option bool :=
  match p, q with
  | Some false, _ | _, Some false => Some false
  | Some true, Some true => Some true
  | _, _ => None
  end.

(** A [filter] or [join] keeps a row when its condition is true; a null
    condition drops the row like a false one. *)
Definition holds (c : option bool) : bool :=
  match c with Some true => true | _ => false end.

Definition string_eqb (a b : string) : bool := bool_decide (a = b).

(** Equality of two doubles as the engine compares them: numeric
    equality, so that [0.0] equals [-0.0], and NaN equal to NaN. *)
Definition double_eqb (x y : double) : bool :=
  match x, y with
  | S754_nan, S754_nan => true
  | _, _ => SFeqb x y
  end.

(** ** Reading a numeric literal into a [FloatType] column *)

(** The value a [FloatType] field takes when the record holds the
    integer literal [n]: [n] rounded to the nearest single-precision
    number, ties to even. *)
Definition FloatType_of_literal (n : Z) : float :=
  binary_normalize Binary32.prec Binary32.emax n 0 false.

(** The integer a finite float with a non-negative exponent stands for. *)
Definition float_to_Z (x : spec_float) : option Z :=
  match x with
  | S754_zero _ => Some 0
  | S754_finite s m e => if 0 <=? e then Some (cond_Zopp s (Z.shiftl (Z.pos m) e)) else None
  | _ => None
  end.

(** ** Casts *)

(** [FloatType] to [DoubleType]: the same number with a 53-bit mantissa. *)
Definition float_to_double (x : float) : double :=
  match x with
  | S754_finite s m e => binary_round Binary64.prec Binary64.emax s m e
  | _ => x
  end.

Definition Long_MIN : Z := - 2 ^ 63.
Definition Long_MAX : Z := 2 ^ 63 - 1.

(** 64-bit two's complement wrap-around of [Long] arithmetic. *)
Definition to_long (z : Z) : Z := (z + 2 ^ 63) mod 2 ^ 64 - 2 ^ 63.

(** [d.toLong]: truncation toward zero, saturating at the [Long] range;
    NaN goes to zero. *)
Definition double_toLong (d : double) : Z :=
  match d with
  | S754_zero _ | S754_nan => 0
  | S754_infinity s => if s then Long_MIN else Long_MAX
  | S754_finite s m e =>
      Z.max Long_MIN (Z.min Long_MAX (cond_Zopp s (Z.shiftl (Z.pos m) e)))
  end.

Definition is_nan_or_infinite (d : double) : bool :=
  match d with
  | S754_nan | S754_infinity _ => true
  | _ => false
  end.

Definition MICROS_PER_SECOND : Z := 1000000.

(** [cast(d as timestamp)]: [d] seconds since the epoch, in
    microseconds; null for NaN and the infinities. *)
Definition doubleToTimestamp (d : double) : option timestamp :=
  if is_nan_or_infinite d then None
  else Some (double_toLong (Binary64.mul d (Binary64.of_Z MICROS_PER_SECOND))).

(** [cast(n as timestamp)] for a whole number of seconds. *)
Definition longToTimestamp (n : Z) : timestamp := to_long (n * MICROS_PER_SECOND).


(** ** The calendar *)

Module Calendar.

Definition SECONDS_PER_DAY : Z := 86400.

(** Year, month and day of the day numbered [z], day 0 being
    1970-01-01, in the proleptic Gregorian calendar.  Years are counted
    from March in 400-year eras, so that the leap day ends a year. *)
Definition civil_from_days (z : Z) : Z * Z * Z :=
  let z := z + 719468 in
  let era := z / 146097 in
  let doe := z - era * 146097 in
  let yoe := (doe - doe / 1460 + doe / 36524 - doe / 146096) / 365 in
  let y := yoe + era * 400 in
  let doy := doe - (365 * yoe + yoe / 4 - yoe / 100) in
  let mp := (5 * doy + 2) / 153 in
  let d := doy - (153 * mp + 2) / 5 + 1 in
  let m := if mp <? 10 then mp + 3 else mp - 9 in
  (if m <=? 2 then y + 1 else y, m, d).

(** The inverse direction: the number of the day [y]-[m]-[d]. *)
Definition days_from_civil (y m d : Z) : Z :=
  let y := if m <=? 2 then y - 1 else y in
  let era := y / 400 in
  let yoe := y - era * 400 in
  let doy := (153 * (if 2 <? m then m - 3 else m + 9) + 2) / 5 + d - 1 in
  let doe := yoe * 365 + yoe / 4 - yoe / 100 + doy in
  era * 146097 + doe - 719468.

Definition is_leap (y : Z) : bool :=
  (y mod 4 =? 0) && (negb (y mod 100 =? 0) || (y mod 400 =? 0)).

Definition days_in_month (y m : Z) : Z :=
  if m =? 2 then (if is_leap y then 29 else 28)
  else if (m =? 4) || (m =? 6) || (m =? 9) || (m =? 11) then 30
  else 31.

(** ISO day of the week of a day number: 1 = Monday .. 7 = Sunday.
    Day 0 was a Thursday. *)
Definition iso_weekday (days : Z) : Z := (days + 3) mod 7 + 1.

(** ISO week of the year: the week belongs to the year its Thursday
    falls in, and weeks are counted from that year's first Thursday. *)
Definition iso_week (days : Z) : Z :=
  let thursday := days - iso_weekday days + 4 in
  let '(y, _, _) := civil_from_days thursday in
  (thursday - days_from_civil y 1 1) / 7 + 1.

(** The calendar fields of an instant, as a [java.util.Calendar] holds
    them. *)
Record fields := {
  YEAR : Z; MONTH : Z; DAY_OF_MONTH : Z;
  HOUR_OF_DAY : Z; MINUTE : Z; SECOND : Z
}.

(** The fields of the instant [secs] seconds after the epoch, read in
    the zone [tz]. *)
Definition of_epoch_seconds (tz : zone) (secs : Z) : fields :=
  let local := secs + zone_offset tz in
  let '(y, m, d) := civil_from_days (local / SECONDS_PER_DAY) in
  let sod := local mod SECONDS_PER_DAY in
  {| YEAR := y; MONTH := m; DAY_OF_MONTH := d;
     HOUR_OF_DAY := sod / 3600; MINUTE := sod mod 3600 / 60; SECOND := sod mod 60 |}.

(** The instant whose fields in the zone [tz] are [f]. *)
Definition to_epoch_seconds (tz : zone) (f : fields) : Z :=
  days_from_civil (YEAR f) (MONTH f) (DAY_OF_MONTH f) * SECONDS_PER_DAY
  + HOUR_OF_DAY f * 3600 + MINUTE f * 60 + SECOND f - zone_offset tz.

(** Strict (non-lenient) field validation. *)
Definition valid (f : fields) : bool :=
  (1 <=? MONTH f) && (MONTH f <=? 12)
  && (1 <=? DAY_OF_MONTH f) && (DAY_OF_MONTH f <=? days_in_month (YEAR f) (MONTH f))
  && (0 <=? HOUR_OF_DAY f) && (HOUR_OF_DAY f <=? 23)
  && (0 <=? MINUTE f) && (MINUTE f <=? 59)
  && (0 <=? SECOND f) && (SECOND f <=? 59).

(** A calendar before any field is parsed into it. *)
Definition cleared : fields :=
  {| YEAR := 1970; MONTH := 1; DAY_OF_MONTH := 1;
     HOUR_OF_DAY := 0; MINUTE := 0; SECOND := 0 |}.

End Calendar.

(** The engine reads the calendar off a timestamp through its
    milliseconds ([t / 1000], a [Long] division, which truncates); these
    are the whole seconds of that instant. *)
Definition epoch_seconds (t : timestamp) : Z := (t ÷ 1000) / 1000.

(** The day number, in the zone [tz], of a timestamp
    ([cast(t as date)]). *)
Definition local_days (tz : zone) (t : timestamp) : Z :=
  (epoch_seconds t + zone_offset tz) / Calendar.SECONDS_PER_DAY.

(** The calendar extractors of [pyspark.sql.functions]. *)
Definition year (tz : zone) (t : option timestamp) : option Z :=
  t' ← t; Some (Calendar.civil_from_days (local_days tz t')).1.1.

Definition month (tz : zone) (t : option timestamp) : option Z :=
  t' ← t; Some (Calendar.civil_from_days (local_days tz t')).1.2.

Definition dayofmonth (tz : zone) (t : option timestamp) : option Z :=
  t' ← t; Some (Calendar.civil_from_days (local_days tz t')).2.

Definition hour (tz : zone) (t : option timestamp) : option Z :=
  t' ← t; Some (Calendar.HOUR_OF_DAY (Calendar.of_epoch_seconds tz (epoch_seconds t'))).

Definition weekofyear (tz : zone) (t : option timestamp) : option Z :=
  t' ← t; Some (Calendar.iso_week (local_days tz t')).


(** ** Date patterns: [date_format] and [to_timestamp] *)

Module DateFormat.

(** A pattern is read as runs of one character: ["yyyy-MM"] is four
    [y], one [-], two [M]. *)
Fixpoint compile (pattern : string) : list (ascii * nat) :=
  match pattern with
  | EmptyString => []
  | String c rest =>
      match compile rest with
      | (c', n) :: runs =>
          if decide (c = c') then (c, S n) :: runs else (c, 1%nat) :: (c', n) :: runs
      | [] => [(c, 1%nat)]
      end
  end.

Fixpoint replicate_char (n : nat) (c : ascii) : string :=
  match n with
  | O => EmptyString
  | S n' => String c (replicate_char n' c)
  end.

(** A non-negative number in decimal, padded with zeros on the left to
    at least [width] characters. *)
Definition zero_pad (width : nat) (n : Z) : string :=
  let digits := NilZero.string_of_uint (N.to_uint (Z.to_N n)) in
  replicate_char (width - String.length digits) "0" +:+ digits.

(** Which calendar field a pattern letter stands for.  [M] is the
    month of the year and [m] the minute of the hour. *)
Inductive field := Year | Month | Day | Hour | Minute | Second | Weekday | ZoneName.

Definition letter (c : ascii) : option field :=
  if decide (c = "y"%char) then Some Year
  else if decide (c = "M"%char) then Some Month
  else if decide (c = "d"%char) then Some Day
  else if decide (c = "H"%char) then Some Hour
  else if decide (c = "m"%char) then Some Minute
  else if decide (c = "s"%char) then Some Second
  else if decide (c = "u"%char) then Some Weekday
  else if decide (c = "z"%char) then Some ZoneName
  else None.

(** The year as the calendar prints it: the year of the era. *)
Definition year_of_era (y : Z) : Z := if y <=? 0 then 1 - y else y.

(** The text of one run for the instant [secs].  Characters that are
    not one of the letters above are copied. *)
Definition format_run (tz : zone) (secs : Z) (run : ascii * nat) : string :=
  let f := Calendar.of_epoch_seconds tz secs in
  let '(c, n) := run in
  match letter c with
  | Some Year => zero_pad n (year_of_era (Calendar.YEAR f))
  | Some Month => zero_pad n (Calendar.MONTH f)
  | Some Day => zero_pad n (Calendar.DAY_OF_MONTH f)
  | Some Hour => zero_pad n (Calendar.HOUR_OF_DAY f)
  | Some Minute => zero_pad n (Calendar.MINUTE f)
  | Some Second => zero_pad n (Calendar.SECOND f)
  | Some Weekday =>
      zero_pad n (Calendar.iso_weekday ((secs + zone_offset tz) / Calendar.SECONDS_PER_DAY))
  | Some ZoneName => zone_id tz
  | None => replicate_char n c
  end.

Definition format (tz : zone) (pattern : string) (secs : Z) : string :=
  foldr (fun run text => format_run tz secs run +:+ text) EmptyString (compile pattern).

(** Parsing.  [strip_prefix p s] is what follows [p] in [s]. *)
Fixpoint strip_prefix (p s : string) : option string :=
  match p, s with
  | EmptyString, _ => Some s
  | String a p', String b s' => if decide (a = b) then strip_prefix p' s' else None
  | String _ _, EmptyString => None
  end.

Definition is_digit (c : ascii) : bool :=
  let n := N_of_ascii c in ((48 <=? n) && (n <=? 57))%N.

(** The leading digits of a text, and the rest. *)
Fixpoint span_digits (s : string) : string * string :=
  match s with
  | String c s' =>
      if is_digit c then let '(ds, rest) := span_digits s' in (String c ds, rest)
      else (EmptyString, s)
  | EmptyString => (EmptyString, EmptyString)
  end.

Definition read_number (s : string) : option (Z * string) :=
  let '(ds, rest) := span_digits s in
  match ds with
  | EmptyString => None
  | _ => d ← NilEmpty.uint_of_string ds; Some (Z.of_N (N.of_uint d), rest)
  end.

Definition set_field (fd : field) (v : Z) (f : Calendar.fields) : Calendar.fields :=
  match fd with
  | Year => {| Calendar.YEAR := v; Calendar.MONTH := Calendar.MONTH f;
               Calendar.DAY_OF_MONTH := Calendar.DAY_OF_MONTH f;
               Calendar.HOUR_OF_DAY := Calendar.HOUR_OF_DAY f;
               Calendar.MINUTE := Calendar.MINUTE f; Calendar.SECOND := Calendar.SECOND f |}
  | Month => {| Calendar.YEAR := Calendar.YEAR f; Calendar.MONTH := v;
                Calendar.DAY_OF_MONTH := Calendar.DAY_OF_MONTH f;
                Calendar.HOUR_OF_DAY := Calendar.HOUR_OF_DAY f;
                Calendar.MINUTE := Calendar.MINUTE f; Calendar.SECOND := Calendar.SECOND f |}
  | Day => {| Calendar.YEAR := Calendar.YEAR f; Calendar.MONTH := Calendar.MONTH f;
              Calendar.DAY_OF_MONTH := v;
              Calendar.HOUR_OF_DAY := Calendar.HOUR_OF_DAY f;
              Calendar.MINUTE := Calendar.MINUTE f; Calendar.SECOND := Calendar.SECOND f |}
  | Hour => {| Calendar.YEAR := Calendar.YEAR f; Calendar.MONTH := Calendar.MONTH f;
               Calendar.DAY_OF_MONTH := Calendar.DAY_OF_MONTH f;
               Calendar.HOUR_OF_DAY := v;
               Calendar.MINUTE := Calendar.MINUTE f; Calendar.SECOND := Calendar.SECOND f |}
  | Minute => {| Calendar.YEAR := Calendar.YEAR f; Calendar.MONTH := Calendar.MONTH f;
                 Calendar.DAY_OF_MONTH := Calendar.DAY_OF_MONTH f;
                 Calendar.HOUR_OF_DAY := Calendar.HOUR_OF_DAY f;
                 Calendar.MINUTE := v; Calendar.SECOND := Calendar.SECOND f |}
  | Second => {| Calendar.YEAR := Calendar.YEAR f; Calendar.MONTH := Calendar.MONTH f;
                 Calendar.DAY_OF_MONTH := Calendar.DAY_OF_MONTH f;
                 Calendar.HOUR_OF_DAY := Calendar.HOUR_OF_DAY f;
                 Calendar.MINUTE := Calendar.MINUTE f; Calendar.SECOND := v |}
  | Weekday | ZoneName => f
  end.

(** Reads the text run by run into the calendar [f]: a letter reads a
    number into its field, a later run of the same letter overwriting
    an earlier one; [z] reads the zone name; any other character must
    be there as written.  Nothing may be left over. *)
Fixpoint parse_runs (tz : zone) (runs : list (ascii * nat)) (text : string)
    (f : Calendar.fields) : option Calendar.fields :=
  match runs with
  | [] => match text with EmptyString => Some f | _ => None end
  | (c, n) :: runs' =>
      match letter c with
      | Some ZoneName =>
          rest ← strip_prefix (zone_id tz) text; parse_runs tz runs' rest f
      | Some fd =>
          '(v, rest) ← read_number text; parse_runs tz runs' rest (set_field fd v f)
      | None =>
          rest ← strip_prefix (replicate_char n c) text; parse_runs tz runs' rest f
      end
  end.

(** The instant a text denotes under a pattern, in seconds since the
    epoch; [None] when the text does not match the pattern or names no
    valid date. *)
Definition parse (tz : zone) (pattern : string) (text : string) : option Z :=
  f ← parse_runs tz (compile pattern) text Calendar.cleared;
  if Calendar.valid f then Some (Calendar.to_epoch_seconds tz f) else None.

End DateFormat.

(** [date_format(t, pattern)] *)
Definition date_format (tz : zone) (t : option timestamp) (pattern : string) : option string :=
  t' ← t; Some (DateFormat.format tz pattern (epoch_seconds t')).

(** [to_timestamp(text, pattern)]: null when the text does not parse. *)
Definition to_timestamp (tz : zone) (text : option string) (pattern : string) : option timestamp :=
  s ← text; secs ← DateFormat.parse tz pattern s; Some (longToTimestamp secs).


(** ** Dataframe operations *)

(** [df.filter(cond)] *)
Definition df_filter {A} (cond : A -> option bool) (df : list A) : list A :=
  filter (fun r => holds (cond r)) df.

(** [df.distinct()]: one row of every group of equal rows. *)
Definition distinct {A} `{EqDecision A} (df : list A) : list A := remove_dups df.

(** [left.join(right, on)]: the inner join, every pair of a left and a
    right row on which the condition is true. *)
Definition df_join {A B} (left : list A) (right : list B) (on : A -> B -> option bool)
    : list (A * B) :=
  a ← left; b ← right; if holds (on a b) then [(a, b)] else [].

(** [monotonically_increasing_id()]: the partition index in the bits
    above bit 33, and below them a counter of the rows of the partition,
    in 64-bit arithmetic. *)
Definition monotonically_increasing_id (partitionIndex count : Z) : Z :=
  to_long (to_long (Z.shiftl partitionIndex 33) + count).

Fixpoint number_rows {A} (partitionIndex count : Z) (rows : list A) : list (Z * A) :=
  match rows with
  | [] => []
  | r :: rows' =>
      (monotonically_increasing_id partitionIndex count, r)
        :: number_rows partitionIndex (count + 1) rows'
  end.

Fixpoint number_partitions {A} (partitionIndex : Z) (parts : list (list A)) : list (Z * A) :=
  match parts with
  | [] => []
  | part :: parts' =>
      number_rows partitionIndex 0 part ++ number_partitions (partitionIndex + 1) parts'
  end.

(** ** Partition values *)

(** A partitioned write stores the value of a partition column in the
    name of a directory.  Null and the empty string are stored under one
    name, [__HIVE_DEFAULT_PARTITION__], which stands for null. *)
Definition hive_partition_value (v : option string) : option string :=
  match v with
  | Some EmptyString => None
  | _ => v
  end.

(** A string column as it is stored: through a directory name when it
    is one of the partition columns, in the files as it is otherwise. *)
Definition stored_string (partition_columns : list string) (column : string)
    (v : option string) : option string :=
  if decide (column ∈ partition_columns) then hive_partition_value v else v.

(** ** Records and tables *)

(** A song record, with the fields of the schema of [process_song_data];
    every field is nullable. *)
Module Song.
Record row := {
  artist_id : option string;
  artist_latitude : option double;
  artist_longitude : option double;
  artist_location : option string;
  artist_name : option string;
  song_id : option string;
  title : option string;
  duration : option double;
  year : option double
}.
End Song.

(** A log record, with the fields of the schema of [process_log_data].
    The type of the [ts] column is a parameter: an integer literal in the
    file, [FloatType] once read, [TimestampType] once converted. *)
Module Log.
Record row {T : Type} := {
  artist : option string;
  auth : option string;
  firstName : option string;
  gender : option string;
  itemInSession : option Z;
  lastName : option string;
  length : option double;
  level : option string;
  location : option string;
  method : option string;
  page : option string;
  registration : option float;
  sessionId : option Z;
  song : option string;
  status : option Z;
  ts : option T;
  userAgent : option string;
  userId : option string
}.
Arguments row : clear implicits.

(** [df.withColumn('ts', f)]: the [ts] column replaced, the others
    kept. *)
Definition withColumn_ts {T U} (f : row T -> option U) (r : row T) : row U :=
  {| artist := artist r; auth := auth r; firstName := firstName r; gender := gender r;
     itemInSession := itemInSession r; lastName := lastName r; length := length r;
     level := level r; location := location r; method := method r; page := page r;
     registration := registration r; sessionId := sessionId r; song := song r;
     status := status r; ts := f r; userAgent := userAgent r; userId := userId r |}.
End Log.

Module Songs.
Record row := {
  song_id : option string;
  artist_id : option string;
  year : option double;
  duration : option double
}.
Definition columns : list string := ["song_id"; "artist_id"; "year"; "duration"].

(** A row as a write partitioned by the given columns stores it. *)
Definition stored (partition_columns : list string) (r : row) : row :=
  {| song_id := stored_string partition_columns "song_id" (song_id r);
     artist_id := stored_string partition_columns "artist_id" (artist_id r);
     year := year r;
     duration := duration r |}.
End Songs.

Module Artists.
Record row := {
  artist_id : option string;
  name : option string;
  location : option string;
  latitude : option double;
  longitude : option double
}.
Definition columns : list string :=
  ["artist_id"; "name"; "location"; "latitude"; "longitude"].
Global Instance row_eq_dec : EqDecision row.
Proof. solve_decision. Defined.
End Artists.

Module Users.
Record row := {
  user_id : option string;
  first_name : option string;
  last_name : option string;
  gender : option string;
  level : option string
}.
Definition columns : list string :=
  ["user_id"; "first_name"; "last_name"; "gender"; "level"].
Global Instance row_eq_dec : EqDecision row.
Proof. solve_decision. Defined.
End Users.

Module Time.
(** The six columns selected before [distinct()]. *)
Record selected := {
  sel_start_time : option timestamp;
  sel_hour : option Z;
  sel_day : option Z;
  sel_week : option Z;
  sel_month : option Z;
  sel_year : option Z
}.
Global Instance selected_eq_dec : EqDecision selected.
Proof. solve_decision. Defined.

(** The table as written, with the [weekday] column added. *)
Record row := {
  start_time : option timestamp;
  hour : option Z;
  day : option Z;
  week : option Z;
  month : option Z;
  year : option Z;
  weekday : option string
}.
Definition columns : list string :=
  ["start_time"; "hour"; "day"; "week"; "month"; "year"; "weekday"].

(** [withColumn('weekday', f)] *)
Definition withColumn_weekday (f : selected -> option string) (r : selected) : row :=
  {| start_time := sel_start_time r; hour := sel_hour r; day := sel_day r;
     week := sel_week r; month := sel_month r; year := sel_year r; weekday := f r |}.

(** A row as a write partitioned by the given columns stores it. *)
Definition stored (partition_columns : list string) (r : row) : row :=
  {| start_time := start_time r; hour := hour r; day := day r; week := week r;
     month := month r; year := year r;
     weekday := stored_string partition_columns "weekday" (weekday r) |}.
End Time.

Module SongPlays.
Record row := {
  songplay_id : Z;
  start_time : option timestamp;
  user_id : option string;
  level : option string;
  song_id : option string;
  artist_id : option string;
  session_id : option Z;
  location : option string;
  user_agent : option string;
  month : option Z;
  year : option Z
}.
Definition columns : list string :=
  ["songplay_id"; "start_time"; "user_id"; "level"; "song_id"; "artist_id";
   "session_id"; "location"; "user_agent"; "month"; "year"].

(** A row as a write partitioned by the given columns stores it. *)
Definition stored (partition_columns : list string) (r : row) : row :=
  {| songplay_id := songplay_id r;
     start_time := start_time r;
     user_id := stored_string partition_columns "user_id" (user_id r);
     level := stored_string partition_columns "level" (level r);
     song_id := stored_string partition_columns "song_id" (song_id r);
     artist_id := stored_string partition_columns "artist_id" (artist_id r);
     session_id := session_id r;
     location := stored_string partition_columns "location" (location r);
     user_agent := stored_string partition_columns "user_agent" (user_agent r);
     month := month r;
     year := year r |}.
End SongPlays.

(** ** Storage and session *)

(** The input location: the files the two globs of the job match,
    [song-data/*/*/*/*.json] and [log-data/*/*/*.json], each file a list
    of records.  In a log file the [ts] field is the integer literal
    written there. *)
Record lake := {
  song_data : list (list Song.row);
  log_data : list (list (Log.row Z))
}.

(** What a destination holds after a write: the columns a reader of
    the destination finds, the columns it is partitioned by, and its
    rows. *)
Record parquet {R : Type} := {
  schema : list string;
  partitionBy : list string;
  rows : list R
}.
Arguments parquet : clear implicits.

(** The output location, one slot per destination; [None] is a
    destination nothing was written to yet. *)
Record warehouse := {
  songs_parquet : option (parquet Songs.row);
  artist_parquet : option (parquet Artists.row);
  users_parquet : option (parquet Users.row);
  time_parquet : option (parquet Time.row);
  song_plays_parquet : option (parquet SongPlays.row)
}.

Definition empty_warehouse : warehouse :=
  {| songs_parquet := None; artist_parquet := None; users_parquet := None;
     time_parquet := None; song_plays_parquet := None |}.

(** [df.write.parquet(...)]: the rows as they are, in files that carry
    the columns even when there is no row. *)
Definition write_parquet {R} (columns : list string) (df : list R) : parquet R :=
  {| schema := columns; partitionBy := []; rows := df |}.

(** [df.write.partitionBy(cols).parquet(...)]: one directory for every
    combination of values of the partition columns, named after the
    values, and under it files with the other columns.  A reader finds
    the columns of the files followed by the partition columns, and the
    partition values as the directory names store them.  When there is
    no row there is no directory and no file, hence no column. *)
Definition write_partitioned {R} (columns partition_columns : list string)
    (stored : list string -> R -> R) (df : list R) : parquet R :=
  {| schema :=
       match df with
       | [] => []
       | _ => filter (fun c => c ∉ partition_columns) columns ++ partition_columns
       end;
     partitionBy := partition_columns;
     rows := stored partition_columns <$> df |}.

(** [mode="overwrite"]: whatever was at the destination is replaced. *)
Definition overwrite_songs (t : parquet Songs.row) (w : warehouse) : warehouse :=
  {| songs_parquet := Some t; artist_parquet := artist_parquet w;
     users_parquet := users_parquet w; time_parquet := time_parquet w;
     song_plays_parquet := song_plays_parquet w |}.

Definition overwrite_artist (t : parquet Artists.row) (w : warehouse) : warehouse :=
  {| songs_parquet := songs_parquet w; artist_parquet := Some t;
     users_parquet := users_parquet w; time_parquet := time_parquet w;
     song_plays_parquet := song_plays_parquet w |}.

Definition overwrite_users (t : parquet Users.row) (w : warehouse) : warehouse :=
  {| songs_parquet := songs_parquet w; artist_parquet := artist_parquet w;
     users_parquet := Some t; time_parquet := time_parquet w;
     song_plays_parquet := song_plays_parquet w |}.

Definition overwrite_time (t : parquet Time.row) (w : warehouse) : warehouse :=
  {| songs_parquet := songs_parquet w; artist_parquet := artist_parquet w;
     users_parquet := users_parquet w; time_parquet := Some t;
     song_plays_parquet := song_plays_parquet w |}.

Definition overwrite_song_plays (t : parquet SongPlays.row) (w : warehouse) : warehouse :=
  {| songs_parquet := songs_parquet w; artist_parquet := artist_parquet w;
     users_parquet := users_parquet w; time_parquet := time_parquet w;
     song_plays_parquet := Some t |}.

(** What the job depends on in the session: the time zone dates are
    read in, and how the engine lays the result of the join out in
    partitions.  The job has no say in the layout: it is some
    arrangement of the rows of the join, in some order. *)
Record SparkSession := {
  timeZone : zone;
  join_layout :
    list (Song.row * Log.row timestamp) -> list (list (Song.row * Log.row timestamp));
  join_layout_permutes : forall df, mjoin (join_layout df) ≡ₚ df
}.

(** [spark.read.json(path, schema=...)], once the glob of [path] is
    resolved: the dataset is the records of all files the glob matches,
    each typed by the schema.  What the reader does with a glob that
    matches no file is in [resolve] below. *)
Definition read_json {J R} (typed : J -> R) (files : list (list J)) : list R :=
  typed <$> mjoin files.

(** The song schema types a record as it is. *)
Definition song_schema (r : Song.row) : Song.row := r.

(** The log schema declares [ts] as [FloatType]. *)
Definition log_schema (r : Log.row Z) : Log.row float :=
  Log.withColumn_ts (fun r => FloatType_of_literal <$> Log.ts r) r.

(** ** The job *)

Definition process_song_data (spark : SparkSession) (input_data : lake)
    (output_data : warehouse) : warehouse :=
  (* read song data file *)
  let df := read_json song_schema (song_data input_data) in
  (* extract columns to create songs table *)
  let songs_table :=
    fmap (fun r => {| Songs.song_id := Song.song_id r; Songs.artist_id := Song.artist_id r;
                     Songs.year := Song.year r; Songs.duration := Song.duration r |}) df in
  (* write songs table to parquet files partitioned by year and artist *)
  let output_data :=
    overwrite_songs
      (write_partitioned Songs.columns ["year"; "artist_id"] Songs.stored songs_table)
      output_data in
  (* extract columns to create artists table *)
  let artist_table :=
    distinct
      (fmap (fun r => {| Artists.artist_id := Song.artist_id r;
                        Artists.name := Song.artist_name r;
                        Artists.location := Song.artist_location r;
                        Artists.latitude := Song.artist_latitude r;
                        Artists.longitude := Song.artist_longitude r |}) df) in
  (* write artists table to parquet files *)
  overwrite_artist (write_parquet Artists.columns artist_table) output_data.

(** The format of the timestamp conversion, as written in the job. *)
Definition ts_format : string := "yyyy-MM-dd HH:MM:ss z".

(** [df.ts / 1000]: both sides are cast to double. *)
Definition ts_div_1000 (ts : option float) : option double :=
  x ← ts; Some (Binary64.div (float_to_double x) (Binary64.of_Z 1000)).

(** The new [ts] column:
    [to_timestamp(date_format((df.ts / 1000).cast(TimestampType()), ts_format), ts_format)] *)
Definition convert_ts (tz : zone) (ts : option float) : option timestamp :=
  to_timestamp tz
    (date_format tz (ts_div_1000 ts ≫= doubleToTimestamp) ts_format) ts_format.

(** The join condition:
    [(df.artist == song_df.artist_name) & (df.song == song_df.title)
     & (df.length == song_df.duration)] *)
Definition join_condition {T} (s : Song.row) (l : Log.row T) : option bool :=
  sql_and
    (sql_and (sql_eq string_eqb (Log.artist l) (Song.artist_name s))
             (sql_eq string_eqb (Log.song l) (Song.title s)))
    (sql_eq double_eqb (Log.length l) (Song.duration s)).

(** The columns selected for the time table. *)
Definition select_time (tz : zone) (r : Log.row timestamp) : Time.selected :=
  {| Time.sel_start_time := Log.ts r;
     Time.sel_hour := hour tz (Log.ts r);
     Time.sel_day := dayofmonth tz (Log.ts r);
     Time.sel_week := weekofyear tz (Log.ts r);
     Time.sel_month := month tz (Log.ts r);
     Time.sel_year := year tz (Log.ts r) |}.

(** The columns selected for the songplays table, from a joined row
    with its [songplay_id]. *)
Definition select_song_plays (tz : zone) (r : Z * (Song.row * Log.row timestamp))
    : SongPlays.row :=
  let '(songplay_id, (s, l)) := r in
  {| SongPlays.songplay_id := songplay_id;
     SongPlays.start_time := Log.ts l;
     SongPlays.user_id := Log.userId l;
     SongPlays.level := Log.level l;
     SongPlays.song_id := Song.song_id s;
     SongPlays.artist_id := Song.artist_id s;
     SongPlays.session_id := Log.sessionId l;
     SongPlays.location := Log.location l;
     SongPlays.user_agent := Log.userAgent l;
     SongPlays.month := month tz (Log.ts l);
     SongPlays.year := year tz (Log.ts l) |}.

Definition process_log_data (spark : SparkSession) (input_data : lake)
    (output_data : warehouse) : warehouse :=
  let tz := timeZone spark in
  (* read log data file *)
  let df := read_json log_schema (log_data input_data) in
  (* filter by actions for song plays *)
  let df_filtered :=
    df_filter (fun r => sql_eq string_eqb (Log.page r) (Some "NextSong")) df in
  (* extract columns for users table *)
  let users_table :=
    distinct
      (fmap (fun r => {| Users.user_id := Log.userId r;
                        Users.first_name := Log.firstName r;
                        Users.last_name := Log.lastName r;
                        Users.gender := Log.gender r;
                        Users.level := Log.level r |}) df_filtered) in
  (* write users table to parquet files *)
  let output_data :=
    overwrite_users (write_parquet Users.columns users_table) output_data in
  (* create timestamp column from original timestamp column *)
  let df := fmap (Log.withColumn_ts (fun r => convert_ts tz (Log.ts r))) df_filtered in
  (* extract columns to create time table *)
  let time_table := distinct (fmap (select_time tz) df) in
  let time_table :=
    fmap (Time.withColumn_weekday (fun r => date_format tz (Time.sel_start_time r) "u"))
      time_table in
  (* write time table to parquet files partitioned by year and month *)
  let output_data :=
    overwrite_time
      (write_partitioned Time.columns ["year"; "month"] Time.stored time_table)
      output_data in
  (* read in song data to use for songplays table *)
  let song_df := read_json song_schema (song_data input_data) in
  (* join tables *)
  let song_plays := df_join song_df df join_condition in
  (* add an increasing id *)
  let song_plays :=
    number_partitions 0 (join_layout spark song_plays) in
  (* select appropriate columns *)
  let song_plays := fmap (select_song_plays tz) song_plays in
  overwrite_song_plays
    (write_partitioned SongPlays.columns ["year"; "month"] SongPlays.stored song_plays)
    output_data.

Definition main (spark : SparkSession) (input_data : lake) (output_data : warehouse)
    : warehouse :=
  process_log_data spark input_data (process_song_data spark input_data output_data).

(** ** Reads that raise

    [spark.read.json] resolves its glob when it is called, before any
    record is read: when the glob matches no file the engine raises an
    [AnalysisException] (the path does not exist).  Neither stage
    catches it, so the script ends there, with the output location as
    the writes before the read left it. *)
Inductive AnalysisException : Type :=
  | Path_does_not_exist (glob : string).

Definition song_glob : string := "song-data/*/*/*/*.json".
Definition log_glob : string := "log-data/*/*/*.json".

Definition resolve {J} (glob : string) (files : list (list J)) : option AnalysisException :=
  match files with
  | [] => Some (Path_does_not_exist glob)
  | _ :: _ => None
  end.

(** The script as run: the output location as it leaves it, and the
    exception that ended it, if any.  Each stage reads before it writes
    anything; the second read of [process_log_data], of the song data
    for the join, resolves the glob that [process_song_data] has
    resolved.  When both globs match a file, this is [main]. *)
Definition etl (spark : SparkSession) (input_data : lake) (output_data : warehouse)
    : warehouse * option AnalysisException :=
  match resolve song_glob (song_data input_data) with
  | Some e => (output_data, Some e)
  | None =>
      let output_data := process_song_data spark input_data output_data in
      match resolve log_glob (log_data input_data) with
      | Some e => (output_data, Some e)
      | None => (process_log_data spark input_data output_data, None)
      end
  end.

(** The rows of a destination; no rows when nothing was written. *)
Definition table {R} (t : option (parquet R)) : list R :=
  match t with Some p => rows p | None => [] end.

(** ** The stages of the job, named

    The dataframes [process_song_data] and [process_log_data] bind to
    local variables, as functions of the session and the input. *)

Definition song_df (input_data : lake) : list Song.row :=
  read_json song_schema (song_data input_data).

Definition log_df (input_data : lake) : list (Log.row float) :=
  read_json log_schema (log_data input_data).

Definition page_is_NextSong {T} (r : Log.row T) : option bool :=
  sql_eq string_eqb (Log.page r) (Some "NextSong").

Definition df_filtered (input_data : lake) : list (Log.row float) :=
  df_filter page_is_NextSong (log_df input_data).

(** The filtered log with its [ts] column converted. *)
Definition log_ts (spark : SparkSession) (input_data : lake) : list (Log.row timestamp) :=
  fmap (Log.withColumn_ts (fun r => convert_ts (timeZone spark) (Log.ts r)))
    (df_filtered input_data).

Definition songs_select (r : Song.row) : Songs.row :=
  {| Songs.song_id := Song.song_id r; Songs.artist_id := Song.artist_id r;
     Songs.year := Song.year r; Songs.duration := Song.duration r |}.

Definition artists_select (r : Song.row) : Artists.row :=
  {| Artists.artist_id := Song.artist_id r; Artists.name := Song.artist_name r;
     Artists.location := Song.artist_location r;
     Artists.latitude := Song.artist_latitude r;
     Artists.longitude := Song.artist_longitude r |}.

Definition users_select {T} (r : Log.row T) : Users.row :=
  {| Users.user_id := Log.userId r; Users.first_name := Log.firstName r;
     Users.last_name := Log.lastName r; Users.gender := Log.gender r;
     Users.level := Log.level r |}.

Definition add_weekday (tz : zone) : Time.selected -> Time.row :=
  Time.withColumn_weekday (fun r => date_format tz (Time.sel_start_time r) "u").

(** The join, before and after the identifiers are added. *)
Definition joined (spark : SparkSession) (input_data : lake)
    : list (Song.row * Log.row timestamp) :=
  df_join (song_df input_data) (log_ts spark input_data) join_condition.

Definition joined_partitions (spark : SparkSession) (input_data : lake)
    : list (list (Song.row * Log.row timestamp)) :=
  join_layout spark (joined spark input_data).

Definition numbered (spark : SparkSession) (input_data : lake)
    : list (Z * (Song.row * Log.row timestamp)) :=
  number_partitions 0 (joined_partitions spark input_data).

(** The five tables the job leaves in the output location. *)
Definition songs_table (spark : SparkSession) (input_data : lake) (w : warehouse) :=
  table (songs_parquet (main spark input_data w)).
Definition artist_table (spark : SparkSession) (input_data : lake) (w : warehouse) :=
  table (artist_parquet (main spark input_data w)).
Definition users_table (spark : SparkSession) (input_data : lake) (w : warehouse) :=
  table (users_parquet (main spark input_data w)).
Definition time_table (spark : SparkSession) (input_data : lake) (w : warehouse) :=
  table (time_parquet (main spark input_data w)).
Definition song_plays_table (spark : SparkSession) (input_data : lake) (w : warehouse) :=
  table (song_plays_parquet (main spark input_data w)).

(** A log record as [process_log_data] sees it after the conversion of
    [ts]: read under the schema, then converted. *)
Definition converted (spark : SparkSession) (l : Log.row Z) : Log.row timestamp :=
  Log.withColumn_ts (fun r => convert_ts (timeZone spark) (Log.ts r)) (log_schema l).

(** An input location whose log files keep their [NextSong] records
    only. *)
Definition only_NextSong (input_data : lake) : lake :=
  {| song_data := song_data input_data;
     log_data := filter (fun r => Log.page r = Some "NextSong") <$> log_data input_data |}.

(** A song record matches a log record: artist name, title and
    duration are all present on both sides and equal, the durations as
    doubles. *)
Definition matches {T} (s : Song.row) (l : Log.row T) : Prop :=
  exists a t d d',
    Log.artist l = Some a /\ Song.artist_name s = Some a
    /\ Log.song l = Some t /\ Song.title s = Some t
    /\ Log.length l = Some d /\ Song.duration s = Some d' /\ double_eqb d d' = true.

(** A number in decimal. *)
Definition decimal (n : Z) : string := NilZero.string_of_uint (N.to_uint (Z.to_N n)).

(** The conversion format with [mm], the minute of the hour, in the
    place where [ts_format] has a second [MM]. *)
Definition ts_format_with_minutes : string := "yyyy-MM-dd HH:mm:ss z".

(** ** Sample input *)

(** A song record with the given duration, in whole seconds. *)
Definition a_song (duration : Z) : Song.row :=
  {| Song.artist_id := Some "ARJIE2Y1187B994AB7";
     Song.artist_latitude := None;
     Song.artist_longitude := None;
     Song.artist_location := Some "";
     Song.artist_name := Some "Line Renaud";
     Song.song_id := Some "SOUPIRU12A6D4FA1E1";
     Song.title := Some "Der Kleine Dompfaff";
     Song.duration := Some (Binary64.of_Z duration);
     Song.year := Some (Binary64.of_Z 0) |}.

(** A log record of the given user, page and time, for a play of
    [a_song 152]. *)
Definition a_log (userId page : string) (ts : Z) : Log.row Z :=
  {| Log.artist := Some "Line Renaud";
     Log.auth := Some "Logged In";
     Log.firstName := Some "Lily";
     Log.gender := Some "F";
     Log.itemInSession := Some 0;
     Log.lastName := Some "Koch";
     Log.length := Some (Binary64.of_Z 152);
     Log.level := Some "paid";
     Log.location := Some "Chicago-Naperville-Elgin, IL-IN-WI";
     Log.method := Some "PUT";
     Log.page := Some page;
     Log.registration := None;
     Log.sessionId := Some 818;
     Log.song := Some "Der Kleine Dompfaff";
     Log.status := Some 200;
     Log.ts := Some ts;
     Log.userAgent := Some "Mozilla/5.0";
     Log.userId := Some userId |}.

(** An input location with one song file and one log file. *)
Definition a_lake (songs : list Song.row) (logs : list (Log.row Z)) : lake :=
  {| song_data := [songs]; log_data := [logs] |}.

(** An input location whose globs match no file. *)
Definition no_files : lake := {| song_data := []; log_data := [] |}.

(** An input location whose globs match one file each, without a
    record in it. *)
Definition empty_files : lake := {| song_data := [[]]; log_data := [[]] |}.

(** A layout with one row to a partition, in the order of the join. *)
Definition one_row_per_partition {A} (df : list A) : list (list A) :=
  (fun r => [r]) <$> df.

Definition one_row_per_partition_permutes {A} (df : list A) :
  mjoin (one_row_per_partition df) ≡ₚ df.
Proof.
  induction df as [|r df IH]; [reflexivity|]. apply perm_skip. exact IH.
Defined.

(** A session in UTC that lays the join out one row to a partition. *)
Definition a_session : SparkSession :=
  {| timeZone := UTC;
     join_layout := one_row_per_partition;
     join_layout_permutes := one_row_per_partition_permutes |}.

(** The same session eight hours west of UTC. *)
Definition a_session_west : SparkSession :=
  {| timeZone := {| zone_id := "PST"; zone_offset := -28800 |};
     join_layout := one_row_per_partition;
     join_layout_permutes := one_row_per_partition_permutes |}.

(** Three plays of one song, ten minutes apart. *)
Definition three_plays : lake :=
  a_lake [a_song 152]
    [a_log "7" "NextSong" 0; a_log "8" "NextSong" 600000; a_log "9" "NextSong" 1200000].

(** Two plays ten seconds apart, at times of the magnitude found in the
    log files. *)
Definition two_close_plays : lake :=
  a_lake [] [a_log "7" "NextSong" 1541105830796; a_log "7" "NextSong" 1541105840796].

(** [a_song 152] with another artist location. *)
Definition a_song_located (location : string) : Song.row :=
  {| Song.artist_id := Song.artist_id (a_song 152);
     Song.artist_latitude := Song.artist_latitude (a_song 152);
     Song.artist_longitude := Song.artist_longitude (a_song 152);
     Song.artist_location := Some location;
     Song.artist_name := Song.artist_name (a_song 152);
     Song.song_id := Song.song_id (a_song 152);
     Song.title := Song.title (a_song 152);
     Song.duration := Song.duration (a_song 152);
     Song.year := Song.year (a_song 152) |}.

(** A play by user 7 at the given subscription level. *)
Definition a_log_at_level (level : string) (ts : Z) : Log.row Z :=
  {| Log.artist := Log.artist (a_log "7" "NextSong" ts);
     Log.auth := Log.auth (a_log "7" "NextSong" ts);
     Log.firstName := Log.firstName (a_log "7" "NextSong" ts);
     Log.gender := Log.gender (a_log "7" "NextSong" ts);
     Log.itemInSession := Log.itemInSession (a_log "7" "NextSong" ts);
     Log.lastName := Log.lastName (a_log "7" "NextSong" ts);
     Log.length := Log.length (a_log "7" "NextSong" ts);
     Log.level := Some level;
     Log.location := Log.location (a_log "7" "NextSong" ts);
     Log.method := Log.method (a_log "7" "NextSong" ts);
     Log.page := Log.page (a_log "7" "NextSong" ts);
     Log.registration := Log.registration (a_log "7" "NextSong" ts);
     Log.sessionId := Log.sessionId (a_log "7" "NextSong" ts);
     Log.song := Log.song (a_log "7" "NextSong" ts);
     Log.status := Log.status (a_log "7" "NextSong" ts);
     Log.ts := Some ts;
     Log.userAgent := Log.userAgent (a_log "7" "NextSong" ts);
     Log.userId := Log.userId (a_log "7" "NextSong" ts) |}.

(** A play whose record has no [ts]. *)
Definition a_log_without_ts : Log.row Z :=
  {| Log.artist := Log.artist (a_log "7" "NextSong" 0);
     Log.auth := Log.auth (a_log "7" "NextSong" 0);
     Log.firstName := Log.firstName (a_log "7" "NextSong" 0);
     Log.gender := Log.gender (a_log "7" "NextSong" 0);
     Log.itemInSession := Log.itemInSession (a_log "7" "NextSong" 0);
     Log.lastName := Log.lastName (a_log "7" "NextSong" 0);
     Log.length := Log.length (a_log "7" "NextSong" 0);
     Log.level := Log.level (a_log "7" "NextSong" 0);
     Log.location := Log.location (a_log "7" "NextSong" 0);
     Log.method := Log.method (a_log "7" "NextSong" 0);
     Log.page := Log.page (a_log "7" "NextSong" 0);
     Log.registration := Log.registration (a_log "7" "NextSong" 0);
     Log.sessionId := Log.sessionId (a_log "7" "NextSong" 0);
     Log.song := Log.song (a_log "7" "NextSong" 0);
     Log.status := Log.status (a_log "7" "NextSong" 0);
     Log.ts := None;
     Log.userAgent := Log.userAgent (a_log "7" "NextSong" 0);
     Log.userId := Log.userId (a_log "7" "NextSong" 0) |}.

(** The row of the time table that stands for a missing time. *)
Definition null_time_row : Time.row :=
  {| Time.start_time := None; Time.hour := None; Time.day := None; Time.week := None;
     Time.month := None; Time.year := None; Time.weekday := None |}.

(** ** Checking the calendar over one cycle *)

(** [forall_range P lo n]: [P] holds of the [n] integers from [lo]
    on. *)
Fixpoint forall_range (P : Z -> bool) (lo : Z) (n : positive) : bool :=
  match n with
  | xH => P lo
  | xO p => forall_range P lo p && forall_range P (lo + Z.pos p) p
  | xI p => P lo && forall_range P (lo + 1) p && forall_range P (lo + 1 + Z.pos p) p
  end.

(** The date of day [z] is a date of the calendar, it is the date of no
    other day, and the day is one of the 366 days from the first of
    January of its year on. *)
Definition civil_day_ok (z : Z) : bool :=
  let '(y, m, d) := Calendar.civil_from_days z in
  (1 <=? m) && (m <=? 12) && (1 <=? d) && (d <=? Calendar.days_in_month y m)
  && (Calendar.days_from_civil y m d =? z)
  && (Calendar.days_from_civil y 1 1 <=? z) && (z <=? Calendar.days_from_civil y 1 1 + 365).

(** ** What [ts_format] prints *)

(** A string of decimal digits only. *)
Fixpoint all_digits (s : string) : bool :=
  match s with
  | EmptyString => true
  | String c s' => DateFormat.is_digit c && all_digits s'
  end.

(** The text [date_format] makes with [ts_format] of the fields of an
    instant: the month stands where the minute would. *)
Definition ts_text (tz : zone) (y m d h s : Z) : string :=
  DateFormat.zero_pad 4 y +:+ String "-"
    (DateFormat.zero_pad 2 m +:+ String "-"
       (DateFormat.zero_pad 2 d +:+ String " "
          (DateFormat.zero_pad 2 h +:+ String ":"
             (DateFormat.zero_pad 2 m +:+ String ":"
                (DateFormat.zero_pad 2 s +:+ String " " (zone_id tz +:+ "")))))).

(** * Properties *)

(** ** What each table holds *)

(** Rows of the time and songplays tables are stored as they are:
    their partition columns, year and month, are numbers. *)
Lemma time_stored_as_is (r : Time.row) : Time.stored ["year"; "month"] r = r.
Proof. destruct r. reflexivity. Qed.

Lemma song_plays_stored_as_is (r : SongPlays.row) :
  SongPlays.stored ["year"; "month"] r = r.
Proof. destruct r. reflexivity. Qed.

(** A songs row is stored as it is unless its [artist_id] is the empty
    string. *)
Lemma songs_stored_as_is (r : Songs.row) :
  Songs.artist_id r <> Some "" -> Songs.stored ["year"; "artist_id"] r = r.
Proof.
  destruct r as [song_id [[|c artist_id]|] year duration]; intros H;
    [contradiction H; reflexivity | reflexivity | reflexivity].
Qed.

(** A songs row as it is stored: the [artist_id] through a directory
    name, the rest as it is. *)
Lemma songs_stored_eq (r : Songs.row) :
  Songs.stored ["year"; "artist_id"] r
  = {| Songs.song_id := Songs.song_id r;
       Songs.artist_id := hive_partition_value (Songs.artist_id r);
       Songs.year := Songs.year r;
       Songs.duration := Songs.duration r |}.
Proof. destruct r. reflexivity. Qed.

Lemma fmap_as_is {A} (f : A -> A) (l : list A) : (forall x, f x = x) -> f <$> l = l.
Proof.
  intros H. induction l as [|x l IH]; [reflexivity|].
  rewrite fmap_cons, H, IH. reflexivity.
Qed.

Section Tables.
Context (spark : SparkSession) (input_data : lake) (w : warehouse).

Lemma songs_table_eq :
  songs_table spark input_data w
  = Songs.stored ["year"; "artist_id"] <$> (songs_select <$> song_df input_data).
Proof. reflexivity. Qed.

Lemma artist_table_eq :
  artist_table spark input_data w = distinct (fmap artists_select (song_df input_data)).
Proof. reflexivity. Qed.

Lemma users_table_eq :
  users_table spark input_data w = distinct (fmap users_select (df_filtered input_data)).
Proof. reflexivity. Qed.

Lemma time_table_eq :
  time_table spark input_data w
  = fmap (add_weekday (timeZone spark))
      (distinct (fmap (select_time (timeZone spark)) (log_ts spark input_data))).
Proof. apply fmap_as_is, time_stored_as_is. Qed.

Lemma song_plays_table_eq :
  song_plays_table spark input_data w
  = fmap (select_song_plays (timeZone spark)) (numbered spark input_data).
Proof. apply fmap_as_is, song_plays_stored_as_is. Qed.

(** All five destinations are written, whatever was there before. *)
Lemma main_writes_all :
  is_Some (songs_parquet (main spark input_data w))
  /\ is_Some (artist_parquet (main spark input_data w))
  /\ is_Some (users_parquet (main spark input_data w))
  /\ is_Some (time_parquet (main spark input_data w))
  /\ is_Some (song_plays_parquet (main spark input_data w)).
Proof. repeat split; eexists; reflexivity. Qed.

End Tables.


(** ** Engine lemmas *)

Lemma elem_of_df_filter {A} (cond : A -> option bool) (df : list A) (r : A) :
  r ∈ df_filter cond df <-> cond r = Some true /\ r ∈ df.
Proof.
  unfold df_filter. rewrite list_elem_of_filter. unfold holds.
  destruct (cond r) as [[]|]; simpl; intuition congruence.
Qed.

Lemma elem_of_df_join {A B} (left : list A) (right : list B) on a b :
  (a, b) ∈ df_join left right on <-> a ∈ left /\ b ∈ right /\ on a b = Some true.
Proof.
  unfold df_join. rewrite list_elem_of_bind. split.
  - intros (a' & Hb & Ha). apply list_elem_of_bind in Hb as (b' & Hab & Hb).
    unfold holds in Hab. destruct (on a' b') as [[]|] eqn:E;
      try (apply not_elem_of_nil in Hab; contradiction).
    apply list_elem_of_singleton in Hab. injection Hab as -> ->. auto.
  - intros (Ha & Hb & Hon). exists a. split; [|exact Ha].
    apply list_elem_of_bind. exists b. split; [|exact Hb].
    unfold holds. rewrite Hon. apply list_elem_of_singleton. reflexivity.
Qed.

Lemma number_rows_snd {A} (p c : Z) (rows : list A) :
  snd <$> number_rows p c rows = rows.
Proof.
  revert c. induction rows as [|r rows IH]; intros c; simpl; [reflexivity|].
  f_equal. apply IH.
Qed.

Lemma number_partitions_snd {A} (p : Z) (parts : list (list A)) :
  snd <$> number_partitions p parts = mjoin parts.
Proof.
  revert p. induction parts as [|part parts IH]; intros p; simpl; [reflexivity|].
  rewrite fmap_app, number_rows_snd, IH. reflexivity.
Qed.

(** Numbering neither drops nor adds a row: the numbered rows are the
    rows of the join, in the order of the layout. *)
Lemma numbered_snd spark input_data :
  snd <$> numbered spark input_data ≡ₚ joined spark input_data.
Proof.
  unfold numbered, joined_partitions.
  rewrite number_partitions_snd. apply join_layout_permutes.
Qed.

Lemma number_partitions_no_rows {A} (p : Z) (parts : list (list A)) :
  mjoin parts = [] -> number_partitions p parts = [].
Proof.
  revert p. induction parts as [|part parts IH]; intros p H; [reflexivity|].
  cbn [mjoin list_join] in H. apply app_eq_nil in H as [-> H].
  simpl. apply IH. exact H.
Qed.

(** Nothing to lay out leaves nothing to number. *)
Lemma number_layout_nil spark (p : Z) :
  number_partitions p (join_layout spark []) = [].
Proof.
  apply number_partitions_no_rows, Permutation_nil_r, join_layout_permutes.
Qed.

(** ** Dimension tables *)

Lemma add_weekday_inj tz : Inj (=) (=) (add_weekday tz).
Proof.
  intros [t1 h1 d1 w1 m1 y1] [t2 h2 d2 w2 m2 y2] H.
  unfold add_weekday, Time.withColumn_weekday in H. simpl in H.
  injection H as -> -> -> -> -> -> _. reflexivity.
Qed.

(** X1.  The artists, users and time tables hold no row twice: the first two
    end in [distinct()], and the [weekday] column added to the time
    table after its [distinct()] is a function of the row. *)
Lemma distinct_dimension_tables spark input_data w :
  NoDup (artist_table spark input_data w)
  /\ NoDup (users_table spark input_data w)
  /\ NoDup (time_table spark input_data w).
Proof.
  rewrite artist_table_eq, users_table_eq, time_table_eq. unfold distinct.
  repeat split; [apply NoDup_remove_dups .. |].
  apply NoDup_fmap_2; [apply add_weekday_inj|]. apply NoDup_remove_dups.
Qed.

(** The songs table has one row for every song record read: nothing is
    removed from it. *)
Lemma songs_table_length spark input_data w :
  length (songs_table spark input_data w) = length (mjoin (song_data input_data)).
Proof.
  rewrite songs_table_eq. unfold song_df, read_json. rewrite !length_fmap. reflexivity.
Qed.

(** C1.  The songs table is the one dimension table written without
    [distinct()]: when the song files hold the same record twice, the
    table holds the same row twice. *)
Theorem songs_table_keeps_duplicates :
  songs_table a_session (a_lake [a_song 152; a_song 152] []) empty_warehouse
  = [songs_select (a_song 152); songs_select (a_song 152)]
  /\ ~ NoDup (songs_table a_session (a_lake [a_song 152; a_song 152] []) empty_warehouse).
Proof.
  split; [reflexivity|].
  rewrite songs_table_eq. intros H.
  apply NoDup_cons in H as [H _]. apply H. vm_compute. left.
Qed.

(** ** Empty input *)

Lemma etl_main spark input_data w :
  song_data input_data <> [] -> log_data input_data <> [] ->
  etl spark input_data w = (main spark input_data w, None).
Proof.
  intros Hsongs Hlogs. unfold etl, main.
  destruct (song_data input_data); [congruence|].
  destruct (log_data input_data); [congruence|]. reflexivity.
Qed.

Lemma main_of_empty_datasets spark input_data w :
  mjoin (song_data input_data) = [] -> mjoin (log_data input_data) = [] ->
  main spark input_data w
  = {| songs_parquet :=
         Some {| schema := []; partitionBy := ["year"; "artist_id"]; rows := [] |};
       artist_parquet :=
         Some {| schema := ["artist_id"; "name"; "location"; "latitude"; "longitude"];
                 partitionBy := []; rows := [] |};
       users_parquet :=
         Some {| schema := ["user_id"; "first_name"; "last_name"; "gender"; "level"];
                 partitionBy := []; rows := [] |};
       time_parquet :=
         Some {| schema := []; partitionBy := ["year"; "month"]; rows := [] |};
       song_plays_parquet :=
         Some {| schema := []; partitionBy := ["year"; "month"]; rows := [] |} |}.
Proof.
  intros Hsongs Hlogs.
  unfold main, process_log_data, process_song_data, read_json. cbv zeta.
  rewrite Hsongs, Hlogs. cbn [fmap list_fmap]. unfold df_filter, distinct.
  cbn [filter list_filter remove_dups fmap list_fmap df_join mbind list_bind].
  rewrite number_layout_nil. reflexivity.
Qed.

(** C8, as the job has it.  When both globs match files and the files
    hold no record (empty raw datasets), no read raises and the job
    writes all five destinations with no rows.  The artist and users
    tables, which are not partitioned, have their columns; the songs,
    time and songplays destinations, which are partitioned, are left
    without a data file and so without columns.  When the song glob
    matches no file, the first read raises and nothing is written; when
    only the log glob matches no file, the read of the second stage
    raises after the first stage has written its two tables. *)
Theorem empty_input_gives_empty_tables spark input_data w :
  (song_data input_data <> [] -> log_data input_data <> [] ->
   mjoin (song_data input_data) = [] -> mjoin (log_data input_data) = [] ->
   etl spark input_data w
   = ({| songs_parquet :=
           Some {| schema := []; partitionBy := ["year"; "artist_id"]; rows := [] |};
         artist_parquet :=
           Some {| schema := ["artist_id"; "name"; "location"; "latitude"; "longitude"];
                   partitionBy := []; rows := [] |};
         users_parquet :=
           Some {| schema := ["user_id"; "first_name"; "last_name"; "gender"; "level"];
                   partitionBy := []; rows := [] |};
         time_parquet :=
           Some {| schema := []; partitionBy := ["year"; "month"]; rows := [] |};
         song_plays_parquet :=
           Some {| schema := []; partitionBy := ["year"; "month"]; rows := [] |} |},
      None))
  /\ (song_data input_data = [] ->
      etl spark input_data w = (w, Some (Path_does_not_exist "song-data/*/*/*/*.json")))
  /\ (song_data input_data <> [] -> log_data input_data = [] ->
      etl spark input_data w
      = (process_song_data spark input_data w,
         Some (Path_does_not_exist "log-data/*/*/*.json"))).
Proof.
  split; [|split].
  - intros Hs Hl Hsongs Hlogs. rewrite etl_main by assumption.
    rewrite main_of_empty_datasets by assumption. reflexivity.
  - intros Hs. unfold etl. rewrite Hs. reflexivity.
  - intros Hs Hl. unfold etl. rewrite Hl.
    destruct (song_data input_data); [congruence | reflexivity].
Qed.

Lemma empty_input_gives_empty_tables_witness :
  etl a_session {| song_data := [[]; []]; log_data := [[]] |} empty_warehouse
  = ({| songs_parquet :=
          Some {| schema := []; partitionBy := ["year"; "artist_id"]; rows := [] |};
        artist_parquet :=
          Some {| schema := ["artist_id"; "name"; "location"; "latitude"; "longitude"];
                  partitionBy := []; rows := [] |};
        users_parquet :=
          Some {| schema := ["user_id"; "first_name"; "last_name"; "gender"; "level"];
                  partitionBy := []; rows := [] |};
        time_parquet :=
          Some {| schema := []; partitionBy := ["year"; "month"]; rows := [] |};
        song_plays_parquet :=
          Some {| schema := []; partitionBy := ["year"; "month"]; rows := [] |} |},
     None).
Proof.
  apply (proj1 (empty_input_gives_empty_tables a_session
                  {| song_data := [[]; []]; log_data := [[]] |} empty_warehouse));
    cbn [song_data log_data]; (discriminate || reflexivity).
Defined.

(** Empty input does not give five empty tables with their columns and
    no error.  When the globs match no file, the first read raises and
    no table is written.  When they match files without records, no
    read raises, but the songs, time and songplays destinations hold no
    column at all. *)
Lemma empty_input_counterexample :
  etl a_session no_files empty_warehouse
  = (empty_warehouse, Some (Path_does_not_exist "song-data/*/*/*/*.json"))
  /\ snd (etl a_session empty_files empty_warehouse) = None
  /\ schema <$> songs_parquet (fst (etl a_session empty_files empty_warehouse))
     <> Some ["song_id"; "artist_id"; "year"; "duration"]
  /\ schema <$> time_parquet (fst (etl a_session empty_files empty_warehouse))
     <> Some ["start_time"; "hour"; "day"; "week"; "month"; "year"; "weekday"]
  /\ schema <$> song_plays_parquet (fst (etl a_session empty_files empty_warehouse))
     <> Some ["songplay_id"; "start_time"; "user_id"; "level"; "song_id"; "artist_id";
              "session_id"; "location"; "user_agent"; "month"; "year"].
Proof.
  split; [reflexivity|]. split; [reflexivity|].
  repeat split; vm_compute; discriminate.
Qed.

(** With rows, a partitioned table has its columns, the partition
    columns last. *)
Example songs_columns_as_read :
  schema <$> songs_parquet (main a_session (a_lake [a_song 152] []) empty_warehouse)
  = Some ["song_id"; "duration"; "year"; "artist_id"].
Proof. vm_compute. reflexivity. Qed.

(** ** The page filter *)

Lemma page_is_NextSong_true {T} (r : Log.row T) :
  page_is_NextSong r = Some true <-> Log.page r = Some "NextSong".
Proof.
  unfold page_is_NextSong, sql_eq, string_eqb. destruct (Log.page r) as [p|].
  - split.
    + intros H. injection H as H. apply bool_decide_eq_true in H. congruence.
    + intros H. injection H as ->. reflexivity.
  - split; discriminate.
Qed.

Lemma elem_of_log_df input_data r :
  r ∈ log_df input_data <-> exists l, r = log_schema l /\ l ∈ mjoin (log_data input_data).
Proof. unfold log_df, read_json. apply list_elem_of_fmap. Qed.

Lemma elem_of_df_filtered input_data r :
  r ∈ df_filtered input_data
  <-> exists l, r = log_schema l /\ Log.page l = Some "NextSong"
                /\ l ∈ mjoin (log_data input_data).
Proof.
  unfold df_filtered. rewrite elem_of_df_filter, elem_of_log_df, page_is_NextSong_true.
  split.
  - intros (Hp & l & -> & Hl). exists l. auto.
  - intros (l & -> & Hp & Hl). split; [exact Hp|]. exists l. auto.
Qed.

Lemma elem_of_log_ts spark input_data r :
  r ∈ log_ts spark input_data
  <-> exists l, r = converted spark l /\ Log.page l = Some "NextSong"
                /\ l ∈ mjoin (log_data input_data).
Proof.
  unfold log_ts. rewrite list_elem_of_fmap. split.
  - intros (r' & -> & Hr'). apply elem_of_df_filtered in Hr' as (l & -> & Hp & Hl).
    exists l. auto.
  - intros (l & -> & Hp & Hl). exists (log_schema l). split; [reflexivity|].
    apply elem_of_df_filtered. exists l. auto.
Qed.

Lemma elem_of_numbered spark input_data id s l :
  (id, (s, l)) ∈ numbered spark input_data -> (s, l) ∈ joined spark input_data.
Proof.
  intros H. rewrite <- numbered_snd.
  apply (list_elem_of_fmap_2 snd) in H. exact H.
Qed.

Lemma joined_is_numbered spark input_data s l :
  (s, l) ∈ joined spark input_data -> exists id, (id, (s, l)) ∈ numbered spark input_data.
Proof.
  rewrite <- numbered_snd. intros H.
  apply list_elem_of_fmap in H as ([id x] & Hx & H). simpl in Hx. subst x.
  exists id. exact H.
Qed.

(** Filtering one file before it is read changes nothing after the
    job's own filter. *)
Lemma df_filter_file (file : list (Log.row Z)) :
  df_filter page_is_NextSong
    (log_schema <$> filter (fun r => Log.page r = Some "NextSong") file)
  = df_filter page_is_NextSong (log_schema <$> file).
Proof.
  unfold df_filter. induction file as [|r file IH]; [reflexivity|].
  rewrite filter_cons. rewrite fmap_cons, (filter_cons _ (log_schema r)).
  destruct (decide (Log.page r = Some "NextSong")) as [Hp|Hp].
  - rewrite fmap_cons, filter_cons. rewrite IH. reflexivity.
  - rewrite IH. destruct (decide _) as [H|H]; [|reflexivity].
    exfalso. apply Hp. apply (page_is_NextSong_true (log_schema r)).
    unfold holds in H. destruct (page_is_NextSong (log_schema r)) as [[]|];
      simpl in H; try contradiction. reflexivity.
Qed.

Lemma df_filter_files (files : list (list (Log.row Z))) :
  df_filter page_is_NextSong
    (log_schema <$> mjoin (filter (fun r => Log.page r = Some "NextSong") <$> files))
  = df_filter page_is_NextSong (log_schema <$> mjoin files).
Proof.
  induction files as [|file files IH]; [reflexivity|].
  cbn [fmap list_fmap mjoin list_join]. rewrite !fmap_app.
  unfold df_filter in *. rewrite !filter_app.
  f_equal; [apply df_filter_file | exact IH].
Qed.

Lemma df_filtered_only_NextSong input_data :
  df_filtered (only_NextSong input_data) = df_filtered input_data.
Proof. apply df_filter_files. Qed.

(** [process_log_data] in terms of the named stages. *)
Lemma process_log_data_eq spark input_data w :
  process_log_data spark input_data w
  = overwrite_song_plays
      (write_partitioned SongPlays.columns ["year"; "month"] SongPlays.stored
         (select_song_plays (timeZone spark) <$> numbered spark input_data))
      (overwrite_time
         (write_partitioned Time.columns ["year"; "month"] Time.stored
            (add_weekday (timeZone spark)
               <$> distinct (select_time (timeZone spark) <$> log_ts spark input_data)))
         (overwrite_users
            (write_parquet Users.columns (distinct (users_select <$> df_filtered input_data)))
            w)).
Proof. reflexivity. Qed.

(** The whole output of the job is that of its [NextSong] records. *)
Lemma main_only_NextSong spark input_data w :
  main spark (only_NextSong input_data) w = main spark input_data w.
Proof.
  unfold main. rewrite !process_log_data_eq.
  unfold numbered, joined_partitions, joined, log_ts.
  rewrite df_filtered_only_NextSong. reflexivity.
Qed.

Lemma elem_of_time_table spark input_data w r :
  r ∈ time_table spark input_data w
  <-> exists l, r = add_weekday (timeZone spark)
                      (select_time (timeZone spark) (converted spark l))
                /\ Log.page l = Some "NextSong" /\ l ∈ mjoin (log_data input_data).
Proof.
  rewrite time_table_eq, list_elem_of_fmap. unfold distinct. split.
  - intros (x & -> & Hx). apply elem_of_remove_dups, list_elem_of_fmap in Hx.
    destruct Hx as (r' & -> & Hr'). apply elem_of_log_ts in Hr' as (l & -> & Hp & Hl).
    exists l. auto.
  - intros (l & -> & Hp & Hl). eexists. split; [reflexivity|].
    apply elem_of_remove_dups, list_elem_of_fmap_2, elem_of_log_ts. exists l. auto.
Qed.

Lemma elem_of_song_plays_table spark input_data w f :
  f ∈ song_plays_table spark input_data w
  <-> exists id s l,
        f = select_song_plays (timeZone spark) (id, (s, converted spark l))
        /\ (id, (s, converted spark l)) ∈ numbered spark input_data
        /\ s ∈ song_df input_data
        /\ join_condition s (converted spark l) = Some true
        /\ Log.page l = Some "NextSong" /\ l ∈ mjoin (log_data input_data).
Proof.
  rewrite song_plays_table_eq, list_elem_of_fmap. split.
  - intros ([id [s r]] & -> & Hn). pose proof (elem_of_numbered _ _ _ _ _ Hn) as Hj.
    apply elem_of_df_join in Hj as (Hs & Hr & Hon).
    apply elem_of_log_ts in Hr as (l & -> & Hp & Hl).
    exists id, s, l. auto 10.
  - intros (id & s & l & -> & Hn & _). eexists. split; [reflexivity | exact Hn].
Qed.

(** C7.  Only the [NextSong] rows contribute to the time table and to
    the songplays table: both tables are what they would be had the
    other rows never been in the log files, and every row of either
    table is made from a log record whose page is [NextSong].  This
    holds whatever the other page values are, [Login] and [Help]
    included. *)
Theorem only_NextSong_rows_contribute spark input_data w :
  time_table spark (only_NextSong input_data) w = time_table spark input_data w
  /\ song_plays_table spark (only_NextSong input_data) w
     = song_plays_table spark input_data w
  /\ (forall r, r ∈ time_table spark input_data w ->
        exists l, l ∈ mjoin (log_data input_data) /\ Log.page l = Some "NextSong"
          /\ r = add_weekday (timeZone spark)
                   (select_time (timeZone spark) (converted spark l)))
  /\ (forall f, f ∈ song_plays_table spark input_data w ->
        exists id s l, l ∈ mjoin (log_data input_data) /\ Log.page l = Some "NextSong"
          /\ f = select_song_plays (timeZone spark) (id, (s, converted spark l))).
Proof.
  unfold time_table, song_plays_table. rewrite main_only_NextSong.
  split; [reflexivity|]. split; [reflexivity|]. split.
  - intros r Hr. apply elem_of_time_table in Hr as (l & -> & Hp & Hl). exists l. auto.
  - intros f Hf. apply elem_of_song_plays_table in Hf as (id & s & l & -> & _ & _ & _ & Hp & Hl).
    exists id, s, l. auto.
Qed.

Lemma only_NextSong_rows_contribute_witness :
  time_table a_session (a_lake [a_song 152] [a_log "7" "NextSong" 0]) empty_warehouse
  = time_table a_session
      (a_lake [a_song 152] [a_log "8" "Login" 1; a_log "7" "NextSong" 0; a_log "8" "Help" 2])
      empty_warehouse
  /\ song_plays_table a_session (a_lake [a_song 152] [a_log "7" "NextSong" 0]) empty_warehouse
     = song_plays_table a_session
         (a_lake [a_song 152]
                 [a_log "8" "Login" 1; a_log "7" "NextSong" 0; a_log "8" "Help" 2])
         empty_warehouse.
Proof.
  pose proof (only_NextSong_rows_contribute a_session
    (a_lake [a_song 152] [a_log "8" "Login" 1; a_log "7" "NextSong" 0; a_log "8" "Help" 2])
    empty_warehouse) as (Ht & Hf & _).
  split; [exact Ht | exact Hf].
Defined.

(** ** The users table *)

(** C9.  The users table is built from the [NextSong] rows only: a user
    all of whose log records have another page is not in it. *)
Theorem users_of_other_pages_absent spark input_data w (uid : option string) :
  (forall l, l ∈ mjoin (log_data input_data) -> Log.userId l = uid ->
             Log.page l <> Some "NextSong") ->
  forall u, u ∈ users_table spark input_data w -> Users.user_id u <> uid.
Proof.
  intros Hother u Hu Heq. rewrite users_table_eq in Hu. unfold distinct in Hu.
  apply elem_of_remove_dups, list_elem_of_fmap in Hu as (r & -> & Hr).
  apply elem_of_df_filtered in Hr as (l & -> & Hp & Hl).
  exact (Hother l Hl Heq Hp).
Qed.

Lemma users_of_other_pages_absent_witness :
  Users.user_id (users_select (a_log "7" "NextSong" 0)) <> Some "8".
Proof.
  apply (users_of_other_pages_absent a_session
           (a_lake [] [a_log "8" "Login" 1; a_log "7" "NextSong" 0; a_log "8" "Help" 2])
           empty_warehouse).
  - intros l Hl Hu. simpl in Hl. rewrite !elem_of_cons in Hl.
    destruct Hl as [-> | [-> | [-> | Hl]]]; try discriminate.
    apply not_elem_of_nil in Hl. contradiction.
  - vm_compute. left.
Defined.

(** ** The join *)

Lemma sql_and_true p q : sql_and p q = Some true <-> p = Some true /\ q = Some true.
Proof. destruct p as [[]|], q as [[]|]; simpl; intuition congruence. Qed.

Lemma sql_eq_string_true (a b : option string) :
  sql_eq string_eqb a b = Some true <-> exists x, a = Some x /\ b = Some x.
Proof.
  destruct a as [x|], b as [y|]; simpl; split;
    try discriminate; try (intros (z & H1 & H2); discriminate).
  - intros H. injection H as H. apply bool_decide_eq_true in H. subst. eauto.
  - intros (z & H1 & H2). injection H1 as ->. injection H2 as ->.
    unfold string_eqb. rewrite bool_decide_eq_true_2; reflexivity.
Qed.

Lemma join_condition_true {T} (s : Song.row) (l : Log.row T) :
  join_condition s l = Some true <-> matches s l.
Proof.
  unfold join_condition, matches.
  rewrite !sql_and_true, !sql_eq_string_true. split.
  - intros [[(a & Ha1 & Ha2) (t & Ht1 & Ht2)] Hd].
    destruct (Log.length l) as [d|], (Song.duration s) as [d'|]; try discriminate.
    injection Hd as Hd. exists a, t, d, d'. auto 10.
  - intros (a & t & d & d' & Ha1 & Ha2 & Ht1 & Ht2 & Hd1 & Hd2 & Hd).
    rewrite Hd1, Hd2. simpl. rewrite Hd. eauto 10.
Qed.

(** The conversion of [ts] leaves the join columns as they are. *)
Lemma matches_converted spark (s : Song.row) (l : Log.row Z) :
  matches s (converted spark l) <-> matches s l.
Proof. reflexivity. Qed.

(** C4.  A [NextSong] log record has a row in the songplays table
    exactly when some song record has its artist name, title and
    duration, the durations compared as doubles with no tolerance.  The
    rows of the table are the matching pairs and nothing else: no row
    stands for a log record without a match, and the song and artist
    identifiers of every row are those of a song record of the
    source. *)
Theorem song_plays_are_the_matches spark input_data w :
  (forall l, l ∈ mjoin (log_data input_data) -> Log.page l = Some "NextSong" ->
     ((exists id s, (id, (s, converted spark l)) ∈ numbered spark input_data)
      <-> (exists s, s ∈ song_df input_data /\ matches s l)))
  /\ song_plays_table spark input_data w
     = select_song_plays (timeZone spark) <$> numbered spark input_data
  /\ (forall f, f ∈ song_plays_table spark input_data w ->
        exists id s l,
          l ∈ mjoin (log_data input_data) /\ Log.page l = Some "NextSong"
          /\ s ∈ song_df input_data /\ matches s l
          /\ f = select_song_plays (timeZone spark) (id, (s, converted spark l))
          /\ SongPlays.song_id f = Song.song_id s
          /\ SongPlays.artist_id f = Song.artist_id s)
  /\ length (song_plays_table spark input_data w)
     = length (df_join (song_df input_data) (log_ts spark input_data) join_condition).
Proof.
  split; [|split; [apply song_plays_table_eq|split]];
    [| |rewrite song_plays_table_eq, length_fmap;
         change (df_join _ _ _) with (joined spark input_data);
         rewrite <- (Permutation_length (numbered_snd spark input_data)), length_fmap;
         reflexivity].
  - intros l Hl Hp. split.
    + intros (id & s & Hn). apply elem_of_numbered, elem_of_df_join in Hn.
      destruct Hn as (Hs & _ & Hon). exists s. split; [exact Hs|].
      apply matches_converted with (spark := spark), join_condition_true, Hon.
    + intros (s & Hs & Hm). destruct (joined_is_numbered spark input_data s (converted spark l))
        as [id Hid]; [|exists id, s; exact Hid].
      apply elem_of_df_join. split; [exact Hs|]. split.
      * apply elem_of_log_ts. exists l. auto.
      * apply join_condition_true, matches_converted, Hm.
  - intros f Hf.
    apply elem_of_song_plays_table in Hf as (id & s & l & -> & _ & Hs & Hon & Hp & Hl).
    exists id, s, l. repeat split; try assumption.
    apply matches_converted with (spark := spark), join_condition_true, Hon.
Qed.

Lemma song_plays_are_the_matches_witness :
  exists id s,
    (id, (s, converted a_session (a_log "7" "NextSong" 0)))
      ∈ numbered a_session (a_lake [a_song 152; a_song 153] [a_log "7" "NextSong" 0]).
Proof.
  apply (proj1 (song_plays_are_the_matches a_session
                  (a_lake [a_song 152; a_song 153] [a_log "7" "NextSong" 0])
                  empty_warehouse)).
  - simpl. left.
  - reflexivity.
  - exists (a_song 152). split; [simpl; left|].
    do 4 eexists. repeat split.
Defined.

(** Durations one unit in the last place apart do not match. *)
Example no_tolerance :
  double_eqb (Binary64.of_Z 152) (SFsucc Binary64.prec Binary64.emax (Binary64.of_Z 152))
  = false.
Proof. vm_compute. reflexivity. Qed.

(** ** Month and year across tables *)

(** C6.  Every row of the songplays table has a row of the time table
    with its [start_time], and its month and year are those of every
    such row: both tables apply [month] and [year] to the same
    converted [ts]. *)
Theorem song_plays_month_year_agree spark input_data w f :
  f ∈ song_plays_table spark input_data w ->
  (exists t, t ∈ time_table spark input_data w
             /\ Time.start_time t = SongPlays.start_time f)
  /\ (forall t, t ∈ time_table spark input_data w ->
        Time.start_time t = SongPlays.start_time f ->
        (Time.month t, Time.year t) = (SongPlays.month f, SongPlays.year f)).
Proof.
  intros Hf.
  apply elem_of_song_plays_table in Hf as (id & s & l & -> & _ & _ & _ & Hp & Hl).
  split.
  - exists (add_weekday (timeZone spark) (select_time (timeZone spark) (converted spark l))).
    split; [|reflexivity]. apply elem_of_time_table. exists l. auto.
  - intros t Ht Heq. apply elem_of_time_table in Ht as (l' & -> & _ & _).
    simpl in Heq |- *. rewrite Heq. reflexivity.
Qed.

Lemma song_plays_month_year_agree_witness :
  exists t,
    t ∈ time_table a_session (a_lake [a_song 152] [a_log "7" "NextSong" 1541105830796])
          empty_warehouse
    /\ Time.start_time t = Some 1541102418000000
    /\ (Time.month t, Time.year t) = (Some 11, Some 2018).
Proof.
  destruct (song_plays_month_year_agree a_session
              (a_lake [a_song 152] [a_log "7" "NextSong" 1541105830796]) empty_warehouse
              (select_song_plays UTC
                 (0, (a_song 152, converted a_session (a_log "7" "NextSong" 1541105830796)))))
    as [(t & Ht & Hs) Hall].
  - vm_compute. left.
  - exists t. split; [exact Ht|]. split; [rewrite Hs; vm_compute; reflexivity|].
    rewrite (Hall t Ht Hs). vm_compute. reflexivity.
Defined.

(** ** Songplay identifiers *)

(** Below bit 64 nothing is lost: the identifier is the partition index
    and the counter side by side, wrapped to the 64-bit range. *)
Lemma monotonically_increasing_id_eq (p c : Z) :
  monotonically_increasing_id p c = to_long (p * 2 ^ 33 + c).
Proof.
  unfold monotonically_increasing_id. rewrite Z.shiftl_mul_pow2 by lia.
  unfold to_long. f_equal.
  replace ((p * 2 ^ 33 + 2 ^ 63) mod 2 ^ 64 - 2 ^ 63 + c + 2 ^ 63)
    with ((p * 2 ^ 33 + 2 ^ 63) mod 2 ^ 64 + c) by lia.
  rewrite Zplus_mod_idemp_l. f_equal. lia.
Qed.

Lemma to_long_inj (a b : Z) :
  0 <= a < 2 ^ 64 -> 0 <= b < 2 ^ 64 -> to_long a = to_long b -> a = b.
Proof.
  unfold to_long. intros Ha Hb H.
  assert (Hm : (a + 2 ^ 63) mod 2 ^ 64 = (b + 2 ^ 63) mod 2 ^ 64) by lia.
  clear H. revert Hm.
  generalize (Z.div_mod (a + 2 ^ 63) (2 ^ 64)), (Z.div_mod (b + 2 ^ 63) (2 ^ 64)).
  generalize (Z.mod_pos_bound (a + 2 ^ 63) (2 ^ 64)), (Z.mod_pos_bound (b + 2 ^ 63) (2 ^ 64)).
  lia.
Qed.

Lemma monotonically_increasing_id_inj (p q i j : Z) :
  0 <= p < 2 ^ 31 -> 0 <= q < 2 ^ 31 -> 0 <= i < 2 ^ 33 -> 0 <= j < 2 ^ 33 ->
  monotonically_increasing_id p i = monotonically_increasing_id q j ->
  p = q /\ i = j.
Proof.
  intros Hp Hq Hi Hj. rewrite !monotonically_increasing_id_eq. intros H.
  apply to_long_inj in H; lia.
Qed.

Lemma ids_of_rows {A} (p c : Z) (rows : list A) (x : Z) :
  x ∈ fst <$> number_rows p c rows ->
  exists j, c <= j < c + Z.of_nat (length rows) /\ x = monotonically_increasing_id p j.
Proof.
  revert c. induction rows as [|r rows IH]; intros c Hx; simpl in Hx.
  - apply not_elem_of_nil in Hx. contradiction.
  - apply elem_of_cons in Hx as [-> | Hx].
    + exists c. simpl length. split; [lia | reflexivity].
    + destruct (IH _ Hx) as (j & Hj & ->). exists j. simpl length. split; [lia | reflexivity].
Qed.

Lemma NoDup_number_rows {A} (p c : Z) (rows : list A) :
  0 <= p < 2 ^ 31 -> 0 <= c -> c + Z.of_nat (length rows) <= 2 ^ 33 ->
  NoDup (fst <$> number_rows p c rows).
Proof.
  intros Hp. revert c. induction rows as [|r rows IH]; intros c Hc Hlen; simpl.
  - constructor.
  - simpl length in Hlen. apply NoDup_cons. split.
    + intros Hin. apply ids_of_rows in Hin as (j & Hj & Heq).
      apply monotonically_increasing_id_inj in Heq; lia.
    + apply IH; lia.
Qed.

Lemma ids_of_partitions {A} (p : Z) (parts : list (list A)) (x : Z) :
  x ∈ fst <$> number_partitions p parts ->
  exists q j part,
    p <= q < p + Z.of_nat (length parts) /\ part ∈ parts
    /\ 0 <= j < Z.of_nat (length part) /\ x = monotonically_increasing_id q j.
Proof.
  revert p. induction parts as [|part parts IH]; intros p Hx; simpl in Hx.
  - apply not_elem_of_nil in Hx. contradiction.
  - rewrite fmap_app in Hx. apply elem_of_app in Hx as [Hx | Hx].
    + apply ids_of_rows in Hx as (j & Hj & ->). exists p, j, part.
      simpl length. repeat split; try lia. left.
    + destruct (IH _ Hx) as (q & j & part' & Hq & Hin & Hj & ->).
      exists q, j, part'. simpl length. repeat split; try lia. right. exact Hin.
Qed.

Lemma NoDup_number_partitions {A} (p : Z) (parts : list (list A)) :
  0 <= p -> p + Z.of_nat (length parts) <= 2 ^ 31 ->
  Forall (fun part => Z.of_nat (length part) <= 2 ^ 33) parts ->
  NoDup (fst <$> number_partitions p parts).
Proof.
  revert p. induction parts as [|part parts IH]; intros p Hp Hlen Hparts; simpl.
  - constructor.
  - simpl length in Hlen. apply Forall_cons in Hparts as [Hpart Hparts].
    rewrite fmap_app. apply NoDup_app. split; [|split].
    + apply NoDup_number_rows; lia.
    + intros x Hx Hx'. apply ids_of_rows in Hx as (j & Hj & ->).
      apply ids_of_partitions in Hx' as (q & j' & part' & Hq & Hin & Hj' & Heq).
      rewrite Forall_forall in Hparts. specialize (Hparts _ Hin).
      apply monotonically_increasing_id_inj in Heq; lia.
    + apply IH; [lia | lia | exact Hparts].
Qed.

Lemma songplay_ids spark input_data w :
  SongPlays.songplay_id <$> song_plays_table spark input_data w
  = fst <$> numbered spark input_data.
Proof.
  rewrite song_plays_table_eq, <- list_fmap_compose.
  apply list_fmap_ext. intros i [id [s l]] _. reflexivity.
Qed.

(** C5.  Two rows of the songplays table never have the same
    [songplay_id], as long as the join result is laid out in at most
    2^31 partitions of at most 2^33 rows each, which is what the engine
    supports; the identifiers need not be contiguous. *)
Theorem songplay_ids_unique spark input_data w :
  Z.of_nat (length (joined_partitions spark input_data)) <= 2 ^ 31 ->
  Forall (fun part => Z.of_nat (length part) <= 2 ^ 33)
    (joined_partitions spark input_data) ->
  forall (i j : nat) (f g : SongPlays.row),
    song_plays_table spark input_data w !! i = Some f ->
    song_plays_table spark input_data w !! j = Some g ->
    i <> j -> SongPlays.songplay_id f <> SongPlays.songplay_id g.
Proof.
  intros Hlen Hparts i j f g Hi Hj Hne Heq.
  assert (Hnd : NoDup (SongPlays.songplay_id <$> song_plays_table spark input_data w)).
  { rewrite songplay_ids. unfold numbered. apply NoDup_number_partitions; [lia | lia | exact Hparts]. }
  apply Hne. eapply NoDup_lookup; [exact Hnd | |].
  - rewrite list_lookup_fmap, Hi. reflexivity.
  - rewrite list_lookup_fmap, Hj. simpl. f_equal. symmetry. exact Heq.
Qed.


Lemma songplay_ids_unique_witness :
  SongPlays.songplay_id
    (select_song_plays UTC
       (0, (a_song 152, converted a_session (a_log "7" "NextSong" 0))))
  <> SongPlays.songplay_id
       (select_song_plays UTC
          (17179869184, (a_song 152, converted a_session (a_log "9" "NextSong" 1200000)))).
Proof.
  apply (songplay_ids_unique a_session three_plays empty_warehouse)
    with (i := 0%nat) (j := 2%nat).
  - apply (bool_decide_unpack _). vm_compute. exact I.
  - apply (bool_decide_unpack _). vm_compute. exact I.
  - vm_compute. reflexivity.
  - vm_compute. reflexivity.
  - lia.
Defined.

(** One row to a partition: the identifiers are 2^33 apart. *)
Example songplay_ids_example :
  SongPlays.songplay_id <$> song_plays_table a_session three_plays empty_warehouse
  = [0; 8589934592; 17179869184].
Proof. vm_compute. reflexivity. Qed.

(** ** The conversion of [ts] *)

(** A pattern without the letter [m] leaves the minute of the calendar
    as it was before parsing. *)
Lemma parse_runs_keeps_minute tz runs :
  Forall (fun run => DateFormat.letter run.1 <> Some DateFormat.Minute) runs ->
  forall text f f',
    DateFormat.parse_runs tz runs text f = Some f' ->
    Calendar.MINUTE f' = Calendar.MINUTE f.
Proof.
  induction 1 as [|[c n] runs Hc _ IH]; intros text f f' Hparse; simpl in Hparse.
  - destruct text; congruence.
  - simpl in Hc. destruct (DateFormat.letter c) as [[]|] eqn:E; try congruence;
      try (destruct (DateFormat.read_number text) as [[v rest]|]; [|discriminate];
           simpl in Hparse; apply IH in Hparse; rewrite Hparse; reflexivity);
      try (destruct (DateFormat.strip_prefix _ text) as [rest|]; [|discriminate];
           simpl in Hparse; apply IH in Hparse; exact Hparse).
Qed.

(** Under [ts_format] every text parses to an instant at minute zero of
    its hour: the pattern has no [m]. *)
Lemma ts_format_sets_no_minute tz text f :
  DateFormat.parse_runs tz (DateFormat.compile ts_format) text Calendar.cleared = Some f ->
  Calendar.MINUTE f = 0.
Proof.
  intros H. apply parse_runs_keeps_minute in H; [exact H|].
  vm_compute. repeat constructor; discriminate.
Qed.

(** C2.  The converted timestamp is not the instant [ts / 1000]: the
    format of the conversion has the month, [MM], where the minute
    belongs, so the minute is printed as the month and parsed back as
    the month.  A log record with [ts = 600000.0], ten minutes after the
    epoch, gets the [start_time] 1970-01-01 00:00:00; with [mm] in the
    format it would keep its ten minutes. *)
Theorem start_time_loses_minutes :
  ts_div_1000 (Some (FloatType_of_literal 600000)) ≫= doubleToTimestamp = Some 600000000
  /\ date_format UTC (Some 600000000) ts_format = Some "1970-01-01 00:01:00 UTC"
  /\ convert_ts UTC (Some (FloatType_of_literal 600000)) = Some 0
  /\ Time.start_time
       <$> time_table a_session (a_lake [] [a_log "7" "NextSong" 600000]) empty_warehouse
     = [Some 0]
  /\ to_timestamp UTC (date_format UTC (Some 600000000) ts_format_with_minutes)
       ts_format_with_minutes
     = Some 600000000.
Proof. vm_compute. repeat split. Qed.

(** ** The weekday column *)

Lemma iso_weekday_range (days : Z) : 1 <= Calendar.iso_weekday days <= 7.
Proof.
  unfold Calendar.iso_weekday.
  pose proof (Z.mod_pos_bound (days + 3) 7). lia.
Qed.

(** From one day to the next the weekday goes up by one, Sunday being
    followed by Monday. *)
Lemma iso_weekday_succ (days : Z) :
  Calendar.iso_weekday (days + 1) = Calendar.iso_weekday days mod 7 + 1.
Proof.
  unfold Calendar.iso_weekday.
  generalize (Z.div_mod (days + 3) 7), (Z.mod_pos_bound (days + 3) 7).
  generalize (Z.div_mod (days + 1 + 3) 7), (Z.mod_pos_bound (days + 1 + 3) 7).
  generalize (Z.div_mod ((days + 3) mod 7 + 1) 7), (Z.mod_pos_bound ((days + 3) mod 7 + 1) 7).
  lia.
Qed.

(** Pattern [u] prints the weekday as one digit. *)
Lemma date_format_u tz (t : timestamp) :
  date_format tz (Some t) "u" = Some (decimal (Calendar.iso_weekday (local_days tz t))).
Proof.
  unfold date_format, local_days. simpl. f_equal.
  pose proof (iso_weekday_range
                ((epoch_seconds t + zone_offset tz) / Calendar.SECONDS_PER_DAY)) as Hr.
  set (n := Calendar.iso_weekday _) in *.
  assert (Hn : n = 1 \/ n = 2 \/ n = 3 \/ n = 4 \/ n = 5 \/ n = 6 \/ n = 7) by lia.
  unfold DateFormat.format. simpl. fold n.
  destruct Hn as [-> | [-> | [-> | [-> | [-> | [-> | ->]]]]]]; reflexivity.
Qed.

(** C3, as the job has it.  In every row of the time table with a
    [start_time], the weekday column is the ISO weekday number of
    [start_time] read in the session's time zone, a number from 1 to 7
    written in decimal; the numbering has Thursday 1970-01-01 as day 4
    and goes up by one a day, so Monday is 1 and Sunday is 7.  The row
    of a record without [ts] has no weekday.  In a session whose time
    zone is UTC, a log record with [ts = 0.0] gives the row of
    1970-01-01, hour 0, weekday 4. *)
Theorem time_table_weekday :
  (forall spark input_data w r,
     r ∈ time_table spark input_data w ->
     match Time.start_time r with
     | Some t =>
         1 <= Calendar.iso_weekday (local_days (timeZone spark) t) <= 7
         /\ Time.weekday r
            = Some (decimal (Calendar.iso_weekday (local_days (timeZone spark) t)))
     | None => Time.weekday r = None
     end)
  /\ (Calendar.civil_from_days 0 = (1970, 1, 1)
      /\ Calendar.iso_weekday 0 = 4
      /\ forall days, Calendar.iso_weekday (days + 1) = Calendar.iso_weekday days mod 7 + 1)
  /\ (forall spark w,
        timeZone spark = UTC ->
        time_table spark (a_lake [] [a_log "7" "NextSong" 0]) w
        = [ {| Time.start_time := Some 0; Time.hour := Some 0; Time.day := Some 1;
               Time.week := Some 1; Time.month := Some 1; Time.year := Some 1970;
               Time.weekday := Some "4" |} ]).
Proof.
  split; [|split].
  - intros spark input_data w r Hr.
    apply elem_of_time_table in Hr as (l & -> & _ & _).
    cbn [Time.start_time Time.weekday add_weekday Time.withColumn_weekday
         select_time Time.sel_start_time].
    destruct (Log.ts (converted spark l)) as [t|]; [|reflexivity].
    split; [apply iso_weekday_range | apply date_format_u].
  - split; [reflexivity|]. split; [reflexivity|]. apply iso_weekday_succ.
  - intros spark w Hutc. rewrite time_table_eq. unfold log_ts. rewrite Hutc.
    vm_compute. reflexivity.
Qed.

Lemma time_table_weekday_witness :
  (1 <= Calendar.iso_weekday (local_days UTC 1541102418000000) <= 7
   /\ Some "4"
      = Some (decimal (Calendar.iso_weekday (local_days UTC 1541102418000000))))
  /\ time_table a_session (a_lake [] [a_log "7" "NextSong" 0]) empty_warehouse
     = [ {| Time.start_time := Some 0; Time.hour := Some 0; Time.day := Some 1;
            Time.week := Some 1; Time.month := Some 1; Time.year := Some 1970;
            Time.weekday := Some "4" |} ].
Proof.
  split.
  - apply (proj1 time_table_weekday a_session
             (a_lake [] [a_log "7" "NextSong" 1541105830796]) empty_warehouse
             (add_weekday UTC
                (select_time UTC
                   (converted a_session (a_log "7" "NextSong" 1541105830796))))).
    vm_compute. left.
  - apply (proj2 (proj2 time_table_weekday) a_session empty_warehouse). reflexivity.
Defined.

(** The weekday is not a number from 1 to 7 in every row, and [ts = 0.0]
    does not give 1970-01-01, hour 0, weekday 4 in every session: a
    record without [ts] leaves a row without weekday, and eight hours
    west of UTC the row of [ts = 0.0] is that of 1969-12-31, hour 16,
    weekday 3. *)
Lemma time_table_weekday_counterexample :
  time_table a_session (a_lake [] [a_log_without_ts]) empty_warehouse = [null_time_row]
  /\ Time.weekday null_time_row = None
  /\ time_table a_session_west (a_lake [] [a_log "7" "NextSong" 0]) empty_warehouse
     = [ {| Time.start_time := Some 0; Time.hour := Some 16; Time.day := Some 31;
            Time.week := Some 1; Time.month := Some 12; Time.year := Some 1969;
            Time.weekday := Some "3" |} ].
Proof. vm_compute. repeat split. Qed.

(** ** Single-precision [ts] *)

Lemma digits2_pos_size (p : positive) : digits2_pos p = Pos.size p.
Proof. induction p; simpl; congruence. Qed.

Lemma digits2_pos_of_bounds (p k : positive) :
  2 ^ (Z.pos k - 1) <= Z.pos p < 2 ^ Z.pos k -> digits2_pos p = k.
Proof.
  intros [Hlo Hhi]. rewrite digits2_pos_size.
  pose proof (Pos.size_gt p) as Hgt. pose proof (Pos.size_le p) as Hle.
  apply Pos2Z.pos_lt_pos in Hgt. apply Pos2Z.pos_le_pos in Hle.
  rewrite Pos2Z.inj_pow in Hgt, Hle. change (Z.pos p~0) with (2 * Z.pos p) in Hle.
  set (s := Pos.size p) in *.
  destruct (Z.lt_trichotomy (Z.pos s) (Z.pos k)) as [H | [H | H]].
  - exfalso. assert (2 ^ Z.pos s <= 2 ^ (Z.pos k - 1)) by (apply Z.pow_le_mono_r; lia). lia.
  - congruence.
  - exfalso. assert (2 ^ (Z.pos k + 1) <= 2 ^ Z.pos s) by (apply Z.pow_le_mono_r; lia).
    rewrite Z.pow_add_r in * by lia. lia.
Qed.

Lemma shr_1_m (mrs : shr_record) :
  0 <= shr_m mrs -> shr_m (shr_1 mrs) = shr_m mrs / 2.
Proof.
  destruct mrs as [m r s]. cbn [shr_m shr_1]. intros Hm.
  destruct m as [|[p|p|]|p]; cbn [shr_m]; try lia.
  - reflexivity.
  - apply Z.div_unique with (r := 1); lia.
  - apply Z.div_unique with (r := 0); lia.
  - reflexivity.
Qed.

Lemma shr_17_m (mrs : shr_record) :
  0 <= shr_m mrs -> shr_m (SpecFloat.iter_pos shr_1 17%positive mrs) = shr_m mrs / 2 ^ 17.
Proof.
  intros Hm. cbn [SpecFloat.iter_pos].
  assert (H : forall x, 0 <= shr_m x -> 0 <= shr_m (shr_1 x)).
  { intros x Hx. rewrite shr_1_m by exact Hx. apply Z.div_pos; lia. }
  repeat (rewrite shr_1_m by (repeat apply H; exact Hm)).
  rewrite !Z.div_div by lia. reflexivity.
Qed.

Lemma round_nearest_even_cases mx lx :
  round_nearest_even mx lx = mx \/ round_nearest_even mx lx = mx + 1.
Proof. destruct lx as [|[]]; simpl; auto. destruct (Z.even mx); auto. Qed.

(** A literal between 2^40 and 2^41 is read as a multiple of 2^17 at
    most 2^17 away from it. *)
Lemma FloatType_of_literal_granularity (n : Z) :
  2 ^ 40 <= n < 2 ^ 41 ->
  exists k, float_to_Z (FloatType_of_literal n) = Some (k * 2 ^ 17)
            /\ Z.abs (k * 2 ^ 17 - n) <= 2 ^ 17.
Proof.
  intros Hn. destruct n as [|p|p]; try lia.
  assert (Hd : digits2_pos p = 41%positive) by (apply digits2_pos_of_bounds; lia).
  unfold FloatType_of_literal, binary_normalize, binary_round.
  rewrite Hd. 
  change (fexp Binary32.prec Binary32.emax (41 + 0)) with 17.
  change (shl_align p 0 17) with (p, 0).
  unfold binary_round_aux, shr_fexp at 1. unfold Zdigits2. rewrite Hd.
  change (fexp Binary32.prec Binary32.emax (41 + 0) - 0) with 17.
  unfold shr at 1. change (0 + 17) with 17.
  set (mrs := SpecFloat.iter_pos shr_1 17%positive _).
  assert (Hq : shr_m mrs = Z.pos p / 2 ^ 17) by (apply shr_17_m; simpl; lia).
  generalize (round_nearest_even_cases (shr_m mrs) (loc_of_shr_record mrs)).
  generalize (round_nearest_even (shr_m mrs) (loc_of_shr_record mrs)). intros m1 Hm1.
  rewrite Hq in Hm1. clearbody mrs. clear Hq mrs.
  pose proof (Z.div_mod (Z.pos p) (2 ^ 17) ltac:(lia)) as Hdm.
  pose proof (Z.mod_pos_bound (Z.pos p) (2 ^ 17) ltac:(lia)) as Hmb.
  set (q := Z.pos p / 2 ^ 17) in *.
  assert (Hqb : 2 ^ 23 <= q < 2 ^ 24) by lia.
  destruct (Z.eq_dec m1 (2 ^ 24)) as [-> | Hne].
  - exists (2 ^ 24). split; [vm_compute; reflexivity | lia].
  - destruct m1 as [|p1|p1]; try lia.
    assert (Hd1 : digits2_pos p1 = 24%positive) by (apply digits2_pos_of_bounds; lia).
    unfold shr_fexp, Zdigits2. rewrite Hd1.
    change (fexp Binary32.prec Binary32.emax (24 + 17) - 17) with 0.
    cbn [shr shr_record_of_loc shr_m].
    change (17 <=? Binary32.emax - Binary32.prec) with true. cbn [float_to_Z].
    change (0 <=? 17) with true. cbn [cond_Zopp].
    exists (Z.pos p1). rewrite Z.shiftl_mul_pow2 by lia. split; [reflexivity | lia].
Qed.

(** C10.  The [ts] field is read in single precision before it is
    divided and converted.  Between 2^40 and 2^41 milliseconds, where
    the times of the log files lie (about 1.5e12), the value read is a
    multiple of 2^17 milliseconds; two records ten seconds apart are
    read as the same number, get the same [start_time], and leave one
    row in the time table, although the conversion applied to their
    exact times tells them apart. *)
Theorem ts_read_in_single_precision :
  (forall n, 2 ^ 40 <= n < 2 ^ 41 ->
     exists k, float_to_Z (FloatType_of_literal n) = Some (k * 2 ^ 17)
               /\ Z.abs (k * 2 ^ 17 - n) <= 2 ^ 17)
  /\ (forall spark l,
        Log.ts (converted spark l)
        = convert_ts (timeZone spark) (FloatType_of_literal <$> Log.ts l))
  /\ FloatType_of_literal 1541105830796 = FloatType_of_literal 1541105840796
  /\ length (df_filtered two_close_plays) = 2%nat
  /\ Time.start_time <$> time_table a_session two_close_plays empty_warehouse
     = [Some 1541102418000000]
  /\ to_timestamp UTC (date_format UTC (Some (1541105830796 * 1000)) ts_format) ts_format
     <> to_timestamp UTC (date_format UTC (Some (1541105840796 * 1000)) ts_format) ts_format.
Proof.
  split; [exact FloatType_of_literal_granularity|].
  split; [reflexivity|].
  vm_compute. repeat split. discriminate.
Qed.

Lemma ts_read_in_single_precision_witness :
  exists k, float_to_Z (FloatType_of_literal 1541105830796) = Some (k * 2 ^ 17)
            /\ Z.abs (k * 2 ^ 17 - 1541105830796) <= 2 ^ 17.
Proof.
  apply (proj1 ts_read_in_single_precision). split.
  - vm_compute. discriminate.
  - vm_compute. reflexivity.
Defined.

(** * Further properties of the job *)

(** ** What the dimension tables contain *)

(** Two different rows of a duplicate-free table are two rows among
    those that satisfy a condition both satisfy. *)
Lemma two_rows_counted {A} (P : A -> Prop) `{!forall x, Decision (P x)}
    (table : list A) (r1 r2 : A) :
  r1 ∈ table -> r2 ∈ table -> r1 <> r2 -> P r1 -> P r2 ->
  (2 <= length (filter P table))%nat.
Proof.
  intros H1 H2 Hne HP1 HP2.
  assert (Hsub : [r1; r2] ⊆+ filter P table).
  { apply NoDup_submseteq.
    - apply NoDup_cons. split; [|apply NoDup_singleton].
      intros Hin. apply list_elem_of_singleton in Hin. contradiction.
    - intros x Hx. apply list_elem_of_filter.
      apply elem_of_cons in Hx as [-> | Hx]; [auto|].
      apply list_elem_of_singleton in Hx as ->. auto. }
  apply submseteq_length in Hsub. exact Hsub.
Qed.

Lemma elem_of_song_df input_data s :
  s ∈ song_df input_data <-> s ∈ mjoin (song_data input_data).
Proof.
  unfold song_df, read_json, song_schema. rewrite list_elem_of_fmap. split.
  - intros (s' & -> & Hs). exact Hs.
  - intros Hs. exists s. auto.
Qed.

(** The artist table holds the artist columns of every song record, and
    nothing else. *)
Lemma elem_of_artist_table spark input_data w (r : Artists.row) :
  r ∈ artist_table spark input_data w
  <-> exists s, s ∈ mjoin (song_data input_data) /\ r = artists_select s.
Proof.
  rewrite artist_table_eq. unfold distinct.
  rewrite elem_of_remove_dups, list_elem_of_fmap. split.
  - intros (s & -> & Hs). exists s. split; [apply elem_of_song_df, Hs | reflexivity].
  - intros (s & Hs & ->). exists s. split; [reflexivity | apply elem_of_song_df, Hs].
Qed.

(** X3.  [distinct()] compares whole rows, not keys: two song records with
    one [artist_id] whose other artist columns differ leave two rows
    with that [artist_id] in the artist table. *)
Theorem artist_id_not_a_key spark input_data w (s1 s2 : Song.row) :
  s1 ∈ mjoin (song_data input_data) -> s2 ∈ mjoin (song_data input_data) ->
  Song.artist_id s1 = Song.artist_id s2 ->
  artists_select s1 <> artists_select s2 ->
  (2 <= length (filter (fun r => Artists.artist_id r = Song.artist_id s1)
                  (artist_table spark input_data w)))%nat.
Proof.
  intros H1 H2 Hid Hne.
  apply (two_rows_counted _ _ (artists_select s1) (artists_select s2)).
  - apply elem_of_artist_table. exists s1. auto.
  - apply elem_of_artist_table. exists s2. auto.
  - exact Hne.
  - reflexivity.
  - simpl. symmetry. exact Hid.
Qed.

Lemma artist_id_not_a_key_witness :
  (2 <= length (filter (fun r => Artists.artist_id r = Some "ARJIE2Y1187B994AB7")
                  (artist_table a_session
                     (a_lake [a_song_located "Paris"; a_song_located "Lille"] [])
                     empty_warehouse)))%nat.
Proof.
  apply (artist_id_not_a_key a_session
           (a_lake [a_song_located "Paris"; a_song_located "Lille"] []) empty_warehouse
           (a_song_located "Paris") (a_song_located "Lille")).
  - simpl. left.
  - simpl. right. left.
  - reflexivity.
  - discriminate.
Defined.

(** The users table holds the user columns of every [NextSong] record,
    and nothing else. *)
Lemma elem_of_users_table spark input_data w (r : Users.row) :
  r ∈ users_table spark input_data w
  <-> exists l, l ∈ mjoin (log_data input_data) /\ Log.page l = Some "NextSong"
                /\ r = users_select l.
Proof.
  rewrite users_table_eq. unfold distinct.
  rewrite elem_of_remove_dups, list_elem_of_fmap. split.
  - intros (x & -> & Hx). apply elem_of_df_filtered in Hx as (l & -> & Hp & Hl).
    exists l. auto.
  - intros (l & Hl & Hp & ->). exists (log_schema l). split; [reflexivity|].
    apply elem_of_df_filtered. exists l. auto.
Qed.

(** X4.  A user who plays songs at two subscription levels has two rows in
    the users table. *)
Theorem user_with_two_levels spark input_data w (l1 l2 : Log.row Z) :
  l1 ∈ mjoin (log_data input_data) -> l2 ∈ mjoin (log_data input_data) ->
  Log.page l1 = Some "NextSong" -> Log.page l2 = Some "NextSong" ->
  Log.userId l1 = Log.userId l2 -> Log.level l1 <> Log.level l2 ->
  (2 <= length (filter (fun r => Users.user_id r = Log.userId l1)
                  (users_table spark input_data w)))%nat.
Proof.
  intros H1 H2 Hp1 Hp2 Hid Hne.
  apply (two_rows_counted _ _ (users_select l1) (users_select l2)).
  - apply elem_of_users_table. exists l1. auto.
  - apply elem_of_users_table. exists l2. auto.
  - intros Heq. apply Hne. apply (f_equal Users.level) in Heq. exact Heq.
  - reflexivity.
  - simpl. symmetry. exact Hid.
Qed.

Lemma user_with_two_levels_witness :
  (2 <= length (filter (fun r => Users.user_id r = Some "7")
                  (users_table a_session
                     (a_lake [] [a_log_at_level "free" 0; a_log_at_level "paid" 600000])
                     empty_warehouse)))%nat.
Proof.
  apply (user_with_two_levels a_session
           (a_lake [] [a_log_at_level "free" 0; a_log_at_level "paid" 600000])
           empty_warehouse (a_log_at_level "free" 0) (a_log_at_level "paid" 600000)).
  - simpl. left.
  - simpl. right. left.
  - reflexivity.
  - reflexivity.
  - reflexivity.
  - discriminate.
Defined.

(** X2.  Nothing is lost and nothing is made up: the songs and artist
    tables hold the selected columns of every song record, the users
    and time tables those of every [NextSong] record, and no table holds
    a row that does not come from such a record.  The songs table,
    partitioned by [artist_id], holds them as the partitioned write
    stores them, an empty [artist_id] as null. *)
Theorem dimension_tables_complete spark input_data w :
  (forall r, r ∈ songs_table spark input_data w
             <-> exists s, s ∈ mjoin (song_data input_data)
                           /\ r = {| Songs.song_id := Song.song_id s;
                                     Songs.artist_id :=
                                       hive_partition_value (Song.artist_id s);
                                     Songs.year := Song.year s;
                                     Songs.duration := Song.duration s |})
  /\ (forall r, r ∈ artist_table spark input_data w
                <-> exists s, s ∈ mjoin (song_data input_data) /\ r = artists_select s)
  /\ (forall r, r ∈ users_table spark input_data w
                <-> exists l, l ∈ mjoin (log_data input_data)
                              /\ Log.page l = Some "NextSong" /\ r = users_select l)
  /\ (forall r, r ∈ time_table spark input_data w
                <-> exists l, l ∈ mjoin (log_data input_data)
                              /\ Log.page l = Some "NextSong"
                              /\ r = add_weekday (timeZone spark)
                                       (select_time (timeZone spark) (converted spark l))).
Proof.
  split; [|split; [|split]].
  - intros r. rewrite songs_table_eq, <- list_fmap_compose, list_elem_of_fmap. split.
    + intros (s & -> & Hs). exists s.
      split; [apply elem_of_song_df, Hs | apply songs_stored_eq].
    + intros (s & Hs & ->). exists s.
      split; [symmetry; apply songs_stored_eq | apply elem_of_song_df, Hs].
  - apply elem_of_artist_table.
  - apply elem_of_users_table.
  - intros r. rewrite elem_of_time_table. split.
    + intros (l & -> & Hp & Hl). exists l. auto.
    + intros (l & Hl & Hp & ->). exists l. auto.
Qed.

(** ** The time table *)

(** The columns selected for the time table are all computed from
    [ts]. *)
Lemma select_time_of_ts tz (r1 r2 : Log.row timestamp) :
  Log.ts r1 = Log.ts r2 -> select_time tz r1 = select_time tz r2.
Proof. unfold select_time. intros ->. reflexivity. Qed.

(** X5.  [start_time] is a key of the time table: no two rows have the same
    [start_time], the null one included. *)
Theorem start_time_is_a_key spark input_data w :
  NoDup (Time.start_time <$> time_table spark input_data w).
Proof.
  rewrite time_table_eq, <- list_fmap_compose. unfold distinct.
  apply NoDup_fmap_2_strong; [|apply NoDup_remove_dups].
  intros x y Hx Hy Heq. simpl in Heq.
  apply elem_of_remove_dups, list_elem_of_fmap in Hx as (r1 & -> & _).
  apply elem_of_remove_dups, list_elem_of_fmap in Hy as (r2 & -> & _).
  apply select_time_of_ts. exact Heq.
Qed.

(** X6.  A [NextSong] record without [ts] is not dropped: it puts a row of
    nulls in the time table. *)
Theorem missing_ts_gives_null_row spark input_data w (l : Log.row Z) :
  l ∈ mjoin (log_data input_data) -> Log.page l = Some "NextSong" -> Log.ts l = None ->
  null_time_row ∈ time_table spark input_data w.
Proof.
  intros Hl Hp Hts. apply elem_of_time_table. exists l. split; [|auto].
  unfold converted, log_schema, add_weekday, select_time, Time.withColumn_weekday.
  simpl. rewrite Hts. reflexivity.
Qed.

Lemma missing_ts_gives_null_row_witness :
  null_time_row
    ∈ time_table a_session (a_lake [] [a_log "7" "NextSong" 0; a_log_without_ts])
        empty_warehouse.
Proof.
  apply (missing_ts_gives_null_row a_session
           (a_lake [] [a_log "7" "NextSong" 0; a_log_without_ts]) empty_warehouse
           a_log_without_ts).
  - simpl. right. left.
  - reflexivity.
  - reflexivity.
Defined.

(** ** Keys of the songplays table *)

(** X7.  Every row of the songplays table refers to rows that exist: its
    [song_id] is that of a row of the songs table whose [artist_id] is
    its own as the songs table stores it, an empty one as null; its
    [artist_id] is in the artist table, and its [user_id] with its
    [level] is in the users table. *)
Theorem song_plays_refer_to_dimension_rows spark input_data w (f : SongPlays.row) :
  f ∈ song_plays_table spark input_data w ->
  (exists r, r ∈ songs_table spark input_data w
             /\ Songs.song_id r = SongPlays.song_id f
             /\ Songs.artist_id r = hive_partition_value (SongPlays.artist_id f))
  /\ (exists r, r ∈ artist_table spark input_data w
                /\ Artists.artist_id r = SongPlays.artist_id f)
  /\ (exists r, r ∈ users_table spark input_data w
                /\ Users.user_id r = SongPlays.user_id f
                /\ Users.level r = SongPlays.level f).
Proof.
  intros Hf.
  apply elem_of_song_plays_table in Hf as (id & s & l & -> & _ & Hs & _ & Hp & Hl).
  split; [|split].
  - exists (Songs.stored ["year"; "artist_id"] (songs_select s)).
    split; [|split; reflexivity].
    rewrite songs_table_eq. apply list_elem_of_fmap_2, list_elem_of_fmap_2. exact Hs.
  - exists (artists_select s). split; [|reflexivity].
    apply elem_of_artist_table. exists s. split; [apply elem_of_song_df, Hs | reflexivity].
  - exists (users_select l). split; [|auto].
    apply elem_of_users_table. exists l. auto.
Qed.

Lemma song_plays_refer_to_dimension_rows_witness :
  exists r, r ∈ users_table a_session three_plays empty_warehouse
            /\ Users.user_id r = Some "8" /\ Users.level r = Some "paid".
Proof.
  apply (song_plays_refer_to_dimension_rows a_session three_plays empty_warehouse
           (select_song_plays UTC
              (8589934592, (a_song 152, converted a_session (a_log "8" "NextSong" 600000))))).
  vm_compute. right. left.
Defined.

(** ** Overwriting *)



(** ** How many songplays *)

Lemma length_df_join {A B} (left : list A) (right : list B) on :
  length (df_join left right on)
  = sum_list ((fun a => length (df_filter (on a) right)) <$> left).
Proof.
  unfold df_join, df_filter. induction left as [|a left IH]; [reflexivity|].
  cbn [mbind list_bind fmap list_fmap sum_list sum_list_with].
  rewrite length_app. f_equal; [|exact IH].
  clear IH. induction right as [|b right IH]; [reflexivity|].
  cbn [mbind list_bind]. rewrite length_app, filter_cons, IH.
  destruct (holds (on a b)); simpl; reflexivity.
Qed.

(** X11.  The songplays table has one row for every pair of a song record and
    a play that match: a play is counted once for each song record with
    its artist, title and duration, so a song record present twice
    doubles its plays. *)
Theorem song_plays_count spark input_data w :
  length (song_plays_table spark input_data w)
  = sum_list ((fun s => length (df_filter (join_condition s) (log_ts spark input_data)))
                <$> song_df input_data).
Proof.
  rewrite song_plays_table_eq, length_fmap.
  rewrite <- (length_fmap snd), numbered_snd. apply length_df_join.
Qed.

(** ** The date columns *)

Lemma forall_range_spec (P : Z -> bool) (n : positive) (lo z : Z) :
  forall_range P lo n = true -> lo <= z < lo + Z.pos n -> P z = true.
Proof.
  revert lo. induction n as [p IH | p IH |]; intros lo H Hz; simpl in H.
  - rewrite !andb_true_iff in H. destruct H as [[H0 H1] H2].
    destruct (Z.eq_dec z lo) as [-> | Hne]; [exact H0|].
    destruct (Z_lt_dec z (lo + 1 + Z.pos p)).
    + apply (IH (lo + 1)); [exact H1 | lia].
    + apply (IH (lo + 1 + Z.pos p)); [exact H2 | lia].
  - rewrite andb_true_iff in H. destruct H as [H1 H2].
    destruct (Z_lt_dec z (lo + Z.pos p)).
    + apply (IH lo); [exact H1 | lia].
    + apply (IH (lo + Z.pos p)); [exact H2 | lia].
  - assert (z = lo) as -> by lia. exact H.
Qed.

(** The calendar repeats every 146097 days, 400 years. *)
Lemma civil_from_days_shift (era z : Z) :
  Calendar.civil_from_days (z + era * 146097)
  = let '(y, m, d) := Calendar.civil_from_days z in (y + era * 400, m, d).
Proof.
  unfold Calendar.civil_from_days. cbv zeta.
  replace (z + era * 146097 + 719468) with (z + 719468 + era * 146097) by lia.
  rewrite Z.div_add by lia.
  replace (z + 719468 + era * 146097 - ((z + 719468) / 146097 + era) * 146097)
    with (z + 719468 - (z + 719468) / 146097 * 146097) by lia.
  set (doe := z + 719468 - (z + 719468) / 146097 * 146097).
  set (yoe := (doe - doe / 1460 + doe / 36524 - doe / 146096) / 365).
  set (mp := (5 * (doe - (365 * yoe + yoe / 4 - yoe / 100)) + 2) / 153).
  destruct (_ <=? 2); f_equal; f_equal; lia.
Qed.

Lemma days_from_civil_shift (era y m d : Z) :
  Calendar.days_from_civil (y + era * 400) m d
  = Calendar.days_from_civil y m d + era * 146097.
Proof.
  unfold Calendar.days_from_civil. cbv zeta.
  assert (H : forall y0, (y0 + era * 400) / 400 = y0 / 400 + era)
    by (intros y0; apply Z.div_add; lia).
  assert (Hy : forall y0,
             y0 + era * 400 - (y0 / 400 + era) * 400 = y0 - y0 / 400 * 400)
    by (intros y0; lia).
  destruct (m <=? 2).
  - replace (y + era * 400 - 1) with (y - 1 + era * 400) by lia.
    rewrite H, Hy. lia.
  - rewrite H, Hy. lia.
Qed.

Lemma days_in_month_shift (era y m : Z) :
  Calendar.days_in_month (y + era * 400) m = Calendar.days_in_month y m.
Proof.
  unfold Calendar.days_in_month, Calendar.is_leap.
  replace (y + era * 400) with (y + era * 100 * 4) at 1 by lia.
  replace (y + era * 400) with (y + era * 4 * 100) at 1 by lia.
  rewrite !Z.mod_add by lia. reflexivity.
Qed.

(** Every day of one 400-year cycle passes the check. *)
Lemma civil_cycle_ok : forall_range civil_day_ok (-719468) 146097 = true.
Proof. vm_compute. reflexivity. Qed.

(** The date of a day is a date of the calendar, the day is found back
    from it, and it is at most 365 days after the first of January of
    its year. *)
Lemma civil_from_days_correct (z : Z) :
  let '(y, m, d) := Calendar.civil_from_days z in
  1 <= m <= 12 /\ 1 <= d <= Calendar.days_in_month y m
  /\ Calendar.days_from_civil y m d = z
  /\ Calendar.days_from_civil y 1 1 <= z <= Calendar.days_from_civil y 1 1 + 365.
Proof.
  set (era := (z + 719468) / 146097).
  set (z0 := z - era * 146097).
  assert (Hz0 : -719468 <= z0 < -719468 + 146097).
  { unfold z0, era.
    generalize (Z.div_mod (z + 719468) 146097), (Z.mod_pos_bound (z + 719468) 146097).
    lia. }
  pose proof (forall_range_spec _ _ _ _ civil_cycle_ok Hz0) as Hok.
  replace z with (z0 + era * 146097) by (unfold z0; lia).
  rewrite civil_from_days_shift. unfold civil_day_ok in Hok.
  destruct (Calendar.civil_from_days z0) as [[y m] d].
  rewrite !andb_true_iff, !Z.leb_le, Z.eqb_eq in Hok.
  rewrite days_in_month_shift, !days_from_civil_shift. lia.
Qed.

(** The week of a day is counted from the first of January of the year
    of its Thursday, so it is one of 53. *)
Lemma iso_week_range (z : Z) : 1 <= Calendar.iso_week z <= 53.
Proof.
  unfold Calendar.iso_week. cbv zeta.
  set (thursday := z - Calendar.iso_weekday z + 4).
  pose proof (civil_from_days_correct thursday) as Hc.
  destruct (Calendar.civil_from_days thursday) as [[y m] d].
  destruct Hc as (_ & _ & _ & Hdoy).
  set (doy := thursday - Calendar.days_from_civil y 1 1) in *.
  generalize (Z.div_mod doy 7), (Z.mod_pos_bound doy 7). lia.
Qed.

(** The date and hour columns of a row made from a timestamp. *)
Lemma date_columns tz (x : Log.row timestamp) (t : timestamp) :
  Log.ts x = Some t ->
  exists y m d h wk,
    Time.year (add_weekday tz (select_time tz x)) = Some y
    /\ Time.month (add_weekday tz (select_time tz x)) = Some m
    /\ Time.day (add_weekday tz (select_time tz x)) = Some d
    /\ Time.hour (add_weekday tz (select_time tz x)) = Some h
    /\ Time.week (add_weekday tz (select_time tz x)) = Some wk
    /\ 1 <= wk <= 53
    /\ 1 <= m <= 12 /\ 1 <= d <= Calendar.days_in_month y m /\ 0 <= h <= 23
    /\ Calendar.days_from_civil y m d = local_days tz t
    /\ local_days tz t * 86400 + h * 3600
       <= epoch_seconds t + zone_offset tz
       < local_days tz t * 86400 + (h + 1) * 3600.
Proof.
  intros Hx.
  unfold add_weekday, select_time, Time.withColumn_weekday.
  cbn [Time.year Time.month Time.day Time.hour Time.week
       Time.sel_year Time.sel_month Time.sel_day Time.sel_hour Time.sel_week].
  rewrite Hx. unfold year, month, dayofmonth, hour, weekofyear. cbn [mbind option_bind].
  unfold Calendar.of_epoch_seconds.
  change ((epoch_seconds t + zone_offset tz) / Calendar.SECONDS_PER_DAY)
    with (local_days tz t).
  pose proof (civil_from_days_correct (local_days tz t)) as Hc.
  destruct (Calendar.civil_from_days (local_days tz t)) as [[y m] d].
  cbn [Calendar.HOUR_OF_DAY fst snd].
  exists y, m, d, ((epoch_seconds t + zone_offset tz) mod Calendar.SECONDS_PER_DAY / 3600),
    (Calendar.iso_week (local_days tz t)).
  destruct Hc as (Hm & Hd & Hdays & _).
  repeat (split; [reflexivity|]). split; [apply iso_week_range|].
  split; [exact Hm|]. split; [exact Hd|].
  unfold local_days, Calendar.SECONDS_PER_DAY.
  set (local := epoch_seconds t + zone_offset tz).
  generalize (Z.div_mod local 86400), (Z.mod_pos_bound local 86400).
  generalize (Z.div_mod (local mod 86400) 3600), (Z.mod_pos_bound (local mod 86400) 3600).
  split; [lia|]. split; [exact Hdays|]. lia.
Qed.

(** X13.  In every row of the time table with a [start_time], the year,
    month and day columns are the calendar date of the day of
    [start_time] in the session's time zone, a date that exists, the
    hour column is the hour of [start_time] in that day, from 0 to 23,
    and the week column is between 1 and 53. *)
Theorem time_table_date_columns spark input_data w (r : Time.row) (t : timestamp) :
  r ∈ time_table spark input_data w -> Time.start_time r = Some t ->
  exists y m d h wk,
    Time.year r = Some y /\ Time.month r = Some m /\ Time.day r = Some d
    /\ Time.hour r = Some h /\ Time.week r = Some wk
    /\ 1 <= wk <= 53
    /\ 1 <= m <= 12 /\ 1 <= d <= Calendar.days_in_month y m /\ 0 <= h <= 23
    /\ Calendar.days_from_civil y m d = local_days (timeZone spark) t
    /\ local_days (timeZone spark) t * 86400 + h * 3600
       <= epoch_seconds t + zone_offset (timeZone spark)
       < local_days (timeZone spark) t * 86400 + (h + 1) * 3600.
Proof.
  intros Hr Ht. apply elem_of_time_table in Hr as (l & -> & _ & _).
  apply date_columns. exact Ht.
Qed.

Lemma time_table_date_columns_witness :
  exists y m d h wk,
    Some 2018 = Some y /\ Some 11 = Some m /\ Some 1 = Some d /\ Some 20 = Some h
    /\ Some 44 = Some wk
    /\ 1 <= wk <= 53
    /\ 1 <= m <= 12 /\ 1 <= d <= Calendar.days_in_month y m /\ 0 <= h <= 23
    /\ Calendar.days_from_civil y m d = local_days UTC 1541102418000000
    /\ local_days UTC 1541102418000000 * 86400 + h * 3600
       <= epoch_seconds 1541102418000000 + 0
       < local_days UTC 1541102418000000 * 86400 + (h + 1) * 3600.
Proof.
  apply (time_table_date_columns a_session
           (a_lake [] [a_log "7" "NextSong" 1541105830796]) empty_warehouse
           (add_weekday UTC
              (select_time UTC (converted a_session (a_log "7" "NextSong" 1541105830796))))
           1541102418000000).
  - vm_compute. left.
  - vm_compute. reflexivity.
Defined.

Lemma days_from_civil_day (y m d : Z) :
  Calendar.days_from_civil y m d = Calendar.days_from_civil y m 1 + (d - 1).
Proof. unfold Calendar.days_from_civil. cbv zeta. lia. Qed.

(** X14.  The songplays table is partitioned by the calendar month of
    [start_time]: in every row with a [start_time], the month is
    between 1 and 12 and the day of [start_time], in the session's time
    zone, is one of the days of that month of that year. *)
Theorem song_plays_month_holds_start_time spark input_data w
    (f : SongPlays.row) (t : timestamp) :
  f ∈ song_plays_table spark input_data w -> SongPlays.start_time f = Some t ->
  exists y m,
    SongPlays.year f = Some y /\ SongPlays.month f = Some m /\ 1 <= m <= 12
    /\ Calendar.days_from_civil y m 1
       <= local_days (timeZone spark) t
       < Calendar.days_from_civil y m 1 + Calendar.days_in_month y m.
Proof.
  intros Hf Ht.
  apply elem_of_song_plays_table in Hf as (id & s & l & -> & _).
  unfold select_song_plays in Ht |- *.
  cbn [SongPlays.start_time SongPlays.year SongPlays.month] in Ht |- *.
  rewrite Ht. unfold year, month. cbn [mbind option_bind].
  pose proof (civil_from_days_correct (local_days (timeZone spark) t)) as Hc.
  destruct (Calendar.civil_from_days (local_days (timeZone spark) t)) as [[y m] d].
  destruct Hc as (Hm & Hd & Hdays & _). rewrite days_from_civil_day in Hdays.
  exists y, m. cbn [fst snd]. repeat (split; [reflexivity|]). split; [exact Hm | lia].
Qed.

Lemma song_plays_month_holds_start_time_witness :
  exists y m,
    Some 1970 = Some y /\ Some 1 = Some m /\ 1 <= m <= 12
    /\ Calendar.days_from_civil y m 1
       <= local_days UTC 0
       < Calendar.days_from_civil y m 1 + Calendar.days_in_month y m.
Proof.
  apply (song_plays_month_holds_start_time a_session three_plays empty_warehouse
           (select_song_plays UTC
              (0, (a_song 152, converted a_session (a_log "7" "NextSong" 0))))
           0).
  - vm_compute. left.
  - vm_compute. reflexivity.
Defined.

(** ** The converted timestamp *)

(** *** Digits *)

Lemma span_digits_app (ds : string) (c : ascii) (rest : string) :
  all_digits ds = true -> DateFormat.is_digit c = false ->
  DateFormat.span_digits (ds +:+ String c rest) = (ds, String c rest).
Proof.
  intros Hds Hc. induction ds as [|d ds IH]; simpl.
  - rewrite Hc. reflexivity.
  - simpl in Hds. apply andb_true_iff in Hds as [Hd Hds].
    rewrite Hd, (IH Hds). reflexivity.
Qed.

Lemma all_digits_app (s1 s2 : string) :
  all_digits s1 = true -> all_digits s2 = true -> all_digits (s1 +:+ s2) = true.
Proof.
  intros H1 H2. induction s1 as [|c s1 IH]; [exact H2|].
  simpl in H1 |- *. apply andb_true_iff in H1 as [Hc H1].
  rewrite Hc, (IH H1). reflexivity.
Qed.

Lemma all_digits_zeros (k : nat) : all_digits (DateFormat.replicate_char k "0") = true.
Proof. induction k as [|k IH]; [reflexivity|]. simpl. exact IH. Qed.

Lemma all_digits_of_uint (d : Decimal.uint) :
  all_digits (NilEmpty.string_of_uint d) = true.
Proof. induction d; simpl; auto. Qed.

Lemma uint_of_zeros (k : nat) (s : string) (d : Decimal.uint) :
  NilEmpty.uint_of_string s = Some d ->
  exists d', NilEmpty.uint_of_string (DateFormat.replicate_char k "0" +:+ s) = Some d'
             /\ N.of_uint d' = N.of_uint d.
Proof.
  intros Hs. induction k as [|k (d' & Hd' & Hn)]; [exists d; auto|].
  exists (Decimal.D0 d'). simpl. rewrite Hd'. split; [reflexivity | exact Hn].
Qed.

Lemma string_of_uint_nonempty (d : Decimal.uint) :
  d <> Decimal.Nil -> NilEmpty.string_of_uint d <> "".
Proof. destruct d; simpl; intros H; try discriminate. contradiction. Qed.

(** A number printed with [zero_pad] and followed by a character that
    is not a digit is read back. *)
Lemma read_number_zero_pad (width : nat) (n : Z) (c : ascii) (rest : string) :
  0 <= n -> DateFormat.is_digit c = false ->
  DateFormat.read_number (DateFormat.zero_pad width n +:+ String c rest)
  = Some (n, String c rest).
Proof.
  intros Hn Hc. unfold DateFormat.read_number, DateFormat.zero_pad.
  set (u := N.to_uint (Z.to_N n)).
  assert (Hu : NilZero.string_of_uint u = NilEmpty.string_of_uint u /\ u <> Decimal.Nil).
  { unfold u. destruct (Z.to_N n) as [|p]; [split; [reflexivity | discriminate]|].
    pose proof (DecimalPos.Unsigned.to_uint_nonnil p) as Hp.
    simpl. unfold NilZero.string_of_uint. destruct (Pos.to_uint p); auto; contradiction. }
  destruct Hu as [Hu Hnil]. rewrite Hu.
  set (k := (width - String.length (NilEmpty.string_of_uint u))%nat).
  rewrite span_digits_app;
    [|apply all_digits_app; [apply all_digits_zeros | apply all_digits_of_uint] | exact Hc].
  destruct (uint_of_zeros k _ _ (NilEmpty.usu u)) as (d' & Hd' & Hof).
  destruct (DateFormat.replicate_char k "0" +:+ NilEmpty.string_of_uint u) as [|a s] eqn:E.
  - exfalso. destruct k; simpl in E; [|discriminate].
    exact (string_of_uint_nonempty u Hnil E).
  - rewrite Hd'. cbn [mbind option_bind]. rewrite Hof. unfold u.
    rewrite DecimalN.Unsigned.of_to, Z2N.id by exact Hn. reflexivity.
Qed.

Lemma strip_prefix_app (p rest : string) :
  DateFormat.strip_prefix p (p +:+ rest) = Some rest.
Proof.
  induction p as [|c p IH]; [reflexivity|]. simpl.
  destruct (decide (c = c)); [exact IH | contradiction].
Qed.

Lemma strip_literal (c : ascii) (rest : string) :
  DateFormat.strip_prefix (DateFormat.replicate_char 1 c) (String c rest) = Some rest.
Proof. simpl. destruct (decide (c = c)); [reflexivity | contradiction]. Qed.

Lemma compile_ts_format :
  DateFormat.compile ts_format
  = [("y"%char, 4%nat); ("-"%char, 1%nat); ("M"%char, 2%nat); ("-"%char, 1%nat);
     ("d"%char, 2%nat); (" "%char, 1%nat); ("H"%char, 2%nat); (":"%char, 1%nat);
     ("M"%char, 2%nat); (":"%char, 1%nat); ("s"%char, 2%nat); (" "%char, 1%nat);
     ("z"%char, 1%nat)].
Proof. vm_compute. reflexivity. Qed.

Lemma format_ts_format tz (secs : Z) :
  DateFormat.format tz ts_format secs
  = ts_text tz
      (DateFormat.year_of_era (Calendar.YEAR (Calendar.of_epoch_seconds tz secs)))
      (Calendar.MONTH (Calendar.of_epoch_seconds tz secs))
      (Calendar.DAY_OF_MONTH (Calendar.of_epoch_seconds tz secs))
      (Calendar.HOUR_OF_DAY (Calendar.of_epoch_seconds tz secs))
      (Calendar.SECOND (Calendar.of_epoch_seconds tz secs)).
Proof.
  unfold DateFormat.format. rewrite compile_ts_format.
  reflexivity.
Qed.

Lemma parse_runs_field tz c n runs text f fd :
  DateFormat.letter c = Some fd -> fd <> DateFormat.ZoneName ->
  DateFormat.parse_runs tz ((c, n) :: runs) text f
  = '(v, rest) ← DateFormat.read_number text;
    DateFormat.parse_runs tz runs rest (DateFormat.set_field fd v f).
Proof. intros H Hz. simpl. rewrite H. destruct fd; try reflexivity. contradiction. Qed.

Lemma parse_runs_literal tz c n runs text f :
  DateFormat.letter c = None ->
  DateFormat.parse_runs tz ((c, n) :: runs) text f
  = rest ← DateFormat.strip_prefix (DateFormat.replicate_char n c) text;
    DateFormat.parse_runs tz runs rest f.
Proof. intros H. simpl. rewrite H. reflexivity. Qed.

Lemma parse_runs_zone tz c n runs text f :
  DateFormat.letter c = Some DateFormat.ZoneName ->
  DateFormat.parse_runs tz ((c, n) :: runs) text f
  = rest ← DateFormat.strip_prefix (zone_id tz) text;
    DateFormat.parse_runs tz runs rest f.
Proof. intros H. simpl. rewrite H. reflexivity. Qed.

(** What [ts_format] reads back from what it printed: every field but
    the minute, which it never printed. *)
Lemma parse_ts_text tz (y m d h s : Z) :
  0 <= y -> 0 <= m -> 0 <= d -> 0 <= h -> 0 <= s ->
  DateFormat.parse_runs tz (DateFormat.compile ts_format) (ts_text tz y m d h s)
    Calendar.cleared
  = Some {| Calendar.YEAR := y; Calendar.MONTH := m; Calendar.DAY_OF_MONTH := d;
            Calendar.HOUR_OF_DAY := h; Calendar.MINUTE := 0; Calendar.SECOND := s |}.
Proof.
  intros Hy Hm Hd Hh Hs. rewrite compile_ts_format. unfold ts_text.
  repeat first
    [ rewrite parse_runs_field with (fd := DateFormat.Year) by (reflexivity || discriminate)
    | rewrite parse_runs_field with (fd := DateFormat.Month) by (reflexivity || discriminate)
    | rewrite parse_runs_field with (fd := DateFormat.Day) by (reflexivity || discriminate)
    | rewrite parse_runs_field with (fd := DateFormat.Hour) by (reflexivity || discriminate)
    | rewrite parse_runs_field with (fd := DateFormat.Second) by (reflexivity || discriminate)
    | rewrite parse_runs_literal by reflexivity
    | rewrite parse_runs_zone by reflexivity
    | rewrite read_number_zero_pad by (assumption || reflexivity)
    | rewrite strip_literal
    | rewrite strip_prefix_app
    | progress cbn [mbind option_bind] ].
  reflexivity.
Qed.

Lemma to_long_small (v : Z) : - 2 ^ 63 <= v < 2 ^ 63 -> to_long v = v.
Proof.
  intros Hv. unfold to_long.
  rewrite Z.mod_small by lia. lia.
Qed.

Lemma doubleToTimestamp_range (d : double) (t0 : timestamp) :
  doubleToTimestamp d = Some t0 -> - 2 ^ 63 <= t0 < 2 ^ 63.
Proof.
  unfold doubleToTimestamp. destruct (is_nan_or_infinite d); [discriminate|].
  intros H. injection H as <-. unfold double_toLong, Long_MIN, Long_MAX.
  destruct (Binary64.mul d _) as [| [] | |]; lia.
Qed.

(** The seconds, minute zero and second of the hour of an instant are
    those of the instant less its minutes. *)
Lemma fields_less_minutes tz (secs : Z) :
  let f := Calendar.of_epoch_seconds tz secs in
  0 <= Calendar.MINUTE f <= 59
  /\ Calendar.of_epoch_seconds tz (secs - 60 * Calendar.MINUTE f)
     = {| Calendar.YEAR := Calendar.YEAR f; Calendar.MONTH := Calendar.MONTH f;
          Calendar.DAY_OF_MONTH := Calendar.DAY_OF_MONTH f;
          Calendar.HOUR_OF_DAY := Calendar.HOUR_OF_DAY f;
          Calendar.MINUTE := 0; Calendar.SECOND := Calendar.SECOND f |}.
Proof.
  cbv zeta. unfold Calendar.of_epoch_seconds, Calendar.SECONDS_PER_DAY.
  set (local := secs + zone_offset tz).
  destruct (Calendar.civil_from_days (local / 86400)) as [[y m] d] eqn:E.
  cbn [Calendar.MINUTE Calendar.YEAR Calendar.MONTH Calendar.DAY_OF_MONTH
       Calendar.HOUR_OF_DAY Calendar.SECOND].
  set (sod := local mod 86400).
  pose proof (Z.div_mod local 86400 ltac:(lia)) as H1.
  pose proof (Z.mod_pos_bound local 86400 ltac:(lia)) as H2. fold sod in H1, H2.
  pose proof (Z.div_mod sod 3600 ltac:(lia)) as H3.
  pose proof (Z.mod_pos_bound sod 3600 ltac:(lia)) as H4.
  pose proof (Z.div_mod (sod mod 3600) 60 ltac:(lia)) as H5.
  pose proof (Z.mod_pos_bound (sod mod 3600) 60 ltac:(lia)) as H6.
  pose proof (Z.div_mod sod 60 ltac:(lia)) as H7.
  pose proof (Z.mod_pos_bound sod 60 ltac:(lia)) as H8.
  set (mi := sod mod 3600 / 60) in *.
  split; [lia|].
  replace (secs - 60 * mi + zone_offset tz) with (local - 60 * mi) by (unfold local; lia).
  assert (Hd : (local - 60 * mi) / 86400 = local / 86400).
  { symmetry. apply Z.div_unique with (r := sod - 60 * mi); lia. }
  assert (Hs : (local - 60 * mi) mod 86400 = sod - 60 * mi).
  { symmetry. apply Z.mod_unique with (q := local / 86400); lia. }
  rewrite Hd, Hs, E.
  assert (Hh : (sod - 60 * mi) / 3600 = sod / 3600).
  { symmetry. apply Z.div_unique with (r := sod mod 3600 - 60 * mi); lia. }
  assert (Hr : (sod - 60 * mi) mod 3600 = sod mod 3600 - 60 * mi).
  { symmetry. apply Z.mod_unique with (q := sod / 3600); lia. }
  assert (Hsec : (sod - 60 * mi) mod 60 = sod mod 60).
  { symmetry. apply Z.mod_unique with (q := sod / 60 - mi); lia. }
  rewrite Hh, Hr, Hsec.
  replace ((sod mod 3600 - 60 * mi) / 60) with 0
    by (symmetry; apply Z.div_small; lia).
  reflexivity.
Qed.

(** The fields of an instant are a valid date and time, and they
    denote the instant. *)
Lemma of_epoch_seconds_valid tz (secs : Z) :
  Calendar.valid (Calendar.of_epoch_seconds tz secs) = true
  /\ Calendar.to_epoch_seconds tz (Calendar.of_epoch_seconds tz secs) = secs.
Proof.
  unfold Calendar.valid, Calendar.to_epoch_seconds, Calendar.of_epoch_seconds,
    Calendar.SECONDS_PER_DAY.
  set (local := secs + zone_offset tz).
  pose proof (civil_from_days_correct (local / 86400)) as Hc.
  destruct (Calendar.civil_from_days (local / 86400)) as [[y m] d].
  destruct Hc as (Hm & Hd & Hdays & _).
  cbn [Calendar.MINUTE Calendar.YEAR Calendar.MONTH Calendar.DAY_OF_MONTH
       Calendar.HOUR_OF_DAY Calendar.SECOND].
  set (sod := local mod 86400).
  pose proof (Z.div_mod local 86400 ltac:(lia)) as H1.
  pose proof (Z.mod_pos_bound local 86400 ltac:(lia)) as H2. fold sod in H1, H2.
  pose proof (Z.div_mod sod 3600 ltac:(lia)) as H3.
  pose proof (Z.mod_pos_bound sod 3600 ltac:(lia)) as H4.
  pose proof (Z.div_mod (sod mod 3600) 60 ltac:(lia)) as H5.
  pose proof (Z.mod_pos_bound (sod mod 3600) 60 ltac:(lia)) as H6.
  pose proof (Z.div_mod sod 60 ltac:(lia)) as H7.
  pose proof (Z.mod_pos_bound sod 60 ltac:(lia)) as H8.
  split.
  - rewrite !andb_true_iff, !Z.leb_le. lia.
  - rewrite Hdays. unfold local in *. lia.
Qed.

Lemma to_timestamp_date_format tz (t : timestamp) pattern (secs' : Z) :
  DateFormat.parse tz pattern (DateFormat.format tz pattern (epoch_seconds t)) = Some secs' ->
  to_timestamp tz (date_format tz (Some t) pattern) pattern
  = Some (longToTimestamp secs').
Proof.
  intros H. unfold date_format, to_timestamp. cbn [mbind option_bind].
  rewrite H. reflexivity.
Qed.

Lemma parse_of_fields tz pattern text (f : Calendar.fields) :
  DateFormat.parse_runs tz (DateFormat.compile pattern) text Calendar.cleared = Some f ->
  Calendar.valid f = true ->
  DateFormat.parse tz pattern text = Some (Calendar.to_epoch_seconds tz f).
Proof.
  intros Hruns Hvalid. unfold DateFormat.parse. rewrite Hruns.
  cbn [mbind option_bind]. rewrite Hvalid. reflexivity.
Qed.

(** The conversion of an instant of the common era: the instant in
    whole seconds, less the minutes of its hour. *)
Lemma convert_instant tz (t0 : timestamp) :
  1 <= Calendar.YEAR (Calendar.of_epoch_seconds tz (epoch_seconds t0)) ->
  to_timestamp tz (date_format tz (Some t0) ts_format) ts_format
  = Some (longToTimestamp
            (epoch_seconds t0
             - 60 * Calendar.MINUTE (Calendar.of_epoch_seconds tz (epoch_seconds t0)))).
Proof.
  intros Hyear. apply to_timestamp_date_format.
  rewrite format_ts_format.
  generalize dependent (epoch_seconds t0). intros secs Hyear.
  destruct (fields_less_minutes tz secs) as [Hmin Hless]. cbv zeta in Hless.
  destruct (of_epoch_seconds_valid tz secs) as [Hvalid _].
  destruct (of_epoch_seconds_valid tz
              (secs - 60 * Calendar.MINUTE (Calendar.of_epoch_seconds tz secs)))
    as [Hvalid' Hback].
  unfold Calendar.valid in Hvalid. rewrite !andb_true_iff, !Z.leb_le in Hvalid.
  assert (Hera : DateFormat.year_of_era
                   (Calendar.YEAR (Calendar.of_epoch_seconds tz secs))
                 = Calendar.YEAR (Calendar.of_epoch_seconds tz secs)).
  { unfold DateFormat.year_of_era.
    destruct (Z.leb_spec (Calendar.YEAR (Calendar.of_epoch_seconds tz secs)) 0); lia. }
  rewrite Hera. rewrite <- Hback.
  apply parse_of_fields; [|exact Hvalid'].
  rewrite Hless. apply parse_ts_text; lia.
Qed.

Lemma epoch_seconds_of_seconds (secs : Z) : epoch_seconds (secs * 1000000) = secs.
Proof.
  unfold epoch_seconds.
  replace (secs * 1000000) with (secs * 1000 * 1000) by lia.
  rewrite Z.quot_mul by lia. apply Z.div_mul. lia.
Qed.

Lemma epoch_seconds_bounds (t0 : timestamp) :
  0 <= t0 -> 0 <= epoch_seconds t0 /\ epoch_seconds t0 * 1000000 <= t0
             /\ t0 < (epoch_seconds t0 + 1) * 1000000.
Proof.
  intros H. unfold epoch_seconds. rewrite Z.quot_div_nonneg by lia.
  pose proof (Z.div_mod t0 1000 ltac:(lia)).
  pose proof (Z.mod_pos_bound t0 1000 ltac:(lia)).
  pose proof (Z.div_mod (t0 / 1000) 1000 ltac:(lia)).
  pose proof (Z.mod_pos_bound (t0 / 1000) 1000 ltac:(lia)).
  lia.
Qed.

(** The new [ts] column for an instant from 1970 on, in the common era
    of the zone: the whole seconds of the instant, less the minutes of
    its hour. *)
Lemma convert_ts_drops_minutes tz (ts : option float) (t0 : timestamp) :
  ts_div_1000 ts ≫= doubleToTimestamp = Some t0 ->
  0 <= t0 ->
  1 <= Calendar.YEAR (Calendar.of_epoch_seconds tz (epoch_seconds t0)) ->
  convert_ts tz ts
  = Some ((epoch_seconds t0
           - 60 * Calendar.MINUTE (Calendar.of_epoch_seconds tz (epoch_seconds t0)))
          * 1000000).
Proof.
  intros Hts Ht0 Hyear. unfold convert_ts. rewrite Hts.
  rewrite (convert_instant tz t0 Hyear). f_equal.
  unfold longToTimestamp, MICROS_PER_SECOND. apply to_long_small.
  destruct (ts_div_1000 ts) as [d|]; [|discriminate].
  apply doubleToTimestamp_range in Hts.
  pose proof (epoch_seconds_bounds t0 Ht0).
  pose proof (proj1 (fields_less_minutes tz (epoch_seconds t0))) as Hm.
  cbv zeta in Hm. lia.
Qed.

(** X8.  For a [NextSong] record whose [ts], read as a float, divided by
    1000 and cast, is an instant [t0] from 1970 on that lies in the
    common era in the session's time zone: the converted [ts] is exactly
    the whole seconds of [t0] less the minutes of its hour, in
    microseconds.  That instant is a [start_time] of the time table, and
    of the songplays table when a song matches the record; it lies at
    minute zero of its hour, and less than an hour before [t0]. *)
Theorem start_time_drops_minutes spark input_data w (l : Log.row Z) (t0 : timestamp) :
  l ∈ mjoin (log_data input_data) -> Log.page l = Some "NextSong" ->
  ts_div_1000 (Log.ts (log_schema l)) ≫= doubleToTimestamp = Some t0 ->
  0 <= t0 ->
  1 <= Calendar.YEAR (Calendar.of_epoch_seconds (timeZone spark) (epoch_seconds t0)) ->
  let start :=
    (epoch_seconds t0
     - 60 * Calendar.MINUTE (Calendar.of_epoch_seconds (timeZone spark) (epoch_seconds t0)))
    * 1000000 in
  Log.ts (converted spark l) = Some start
  /\ Some start ∈ (Time.start_time <$> time_table spark input_data w)
  /\ (forall s, s ∈ song_df input_data ->
                join_condition s (converted spark l) = Some true ->
                Some start ∈ (SongPlays.start_time <$> song_plays_table spark input_data w))
  /\ Calendar.MINUTE (Calendar.of_epoch_seconds (timeZone spark) (epoch_seconds start)) = 0
  /\ start <= t0 < start + 3541000000.
Proof.
  intros Hl Hpage Hts Ht0 Hyear start.
  assert (Hc : Log.ts (converted spark l) = Some start).
  { exact (convert_ts_drops_minutes (timeZone spark) (Log.ts (log_schema l)) t0
             Hts Ht0 Hyear). }
  split; [exact Hc|]. split; [|split; [|split]].
  - apply list_elem_of_fmap.
    exists (add_weekday (timeZone spark) (select_time (timeZone spark) (converted spark l))).
    split; [symmetry; exact Hc|].
    apply elem_of_time_table. exists l. auto.
  - intros s Hs Hon.
    assert (Hj : (s, converted spark l) ∈ joined spark input_data).
    { apply elem_of_df_join. repeat split; [exact Hs| |exact Hon].
      apply elem_of_log_ts. exists l. auto. }
    rewrite <- numbered_snd in Hj.
    apply list_elem_of_fmap in Hj as ([id p] & Hp & Hn). cbn [snd] in Hp. subst p.
    apply list_elem_of_fmap.
    exists (select_song_plays (timeZone spark) (id, (s, converted spark l))).
    split; [symmetry; exact Hc|].
    apply elem_of_song_plays_table. exists id, s, l. auto 10.
  - unfold start. rewrite epoch_seconds_of_seconds.
    destruct (fields_less_minutes (timeZone spark) (epoch_seconds t0)) as [_ Hless].
    cbv zeta in Hless. rewrite Hless. reflexivity.
  - pose proof (epoch_seconds_bounds t0 Ht0).
    pose proof (proj1 (fields_less_minutes (timeZone spark) (epoch_seconds t0))) as Hm.
    cbv zeta in Hm. unfold start. lia.
Qed.

Lemma start_time_drops_minutes_witness :
  let start :=
    (epoch_seconds 1541105778688000
     - 60 * Calendar.MINUTE
              (Calendar.of_epoch_seconds (timeZone a_session)
                 (epoch_seconds 1541105778688000)))
    * 1000000 in
  Log.ts (converted a_session (a_log "7" "NextSong" 1541105830796)) = Some start
  /\ Some start
     ∈ (Time.start_time
          <$> time_table a_session (a_lake [] [a_log "7" "NextSong" 1541105830796])
                empty_warehouse)
  /\ (forall s, s ∈ song_df (a_lake [] [a_log "7" "NextSong" 1541105830796]) ->
                join_condition s (converted a_session (a_log "7" "NextSong" 1541105830796))
                = Some true ->
                Some start
                ∈ (SongPlays.start_time
                     <$> song_plays_table a_session
                           (a_lake [] [a_log "7" "NextSong" 1541105830796])
                           empty_warehouse))
  /\ Calendar.MINUTE (Calendar.of_epoch_seconds (timeZone a_session) (epoch_seconds start))
     = 0
  /\ start <= 1541105778688000 < start + 3541000000.
Proof.
  apply (start_time_drops_minutes a_session
           (a_lake [] [a_log "7" "NextSong" 1541105830796]) empty_warehouse
           (a_log "7" "NextSong" 1541105830796) 1541105778688000).
  - vm_compute. left.
  - reflexivity.
  - vm_compute. reflexivity.
  - lia.
  - vm_compute. discriminate.
Defined.
